(** * C64_Py: the BASIC interpreter of [c64_basic.py]

    A shallow embedding of class [C64Basic]: the expression evaluator
    ([evaluate_expression]), the statement dispatcher ([execute_command])
    with its handlers, and the run loop ([run_program]), followed by the
    properties of the specification that concern them.

    Conventions of the embedding.
    - Text is ASCII ([string] of the standard library); the character tests
      of Python ([isalpha], [isspace], ...) are given on ASCII code points.
    - [self] is an explicit [state] record threaded through every handler.
    - A Python exception is a [Raise]/[Raised] result; a bare [except:]
      is [catch].
    - Recursion of the interpreter (IF ... THEN action, RUN inside a
      program, evaluation of sub-expressions) and the [while] loop of
      [run_program] are bounded by a fuel; running out of it is the
      separate answer [Diverge]/[Diverged], which no handler catches.
    - The builtins of the Python host that the interpreter calls ([eval],
      the callables of [self.functions], [float], [int] on text, arithmetic
      on floats) are the fields of the class [Host].
    - [sys.stdout] is not a terminal, as under [test_basic.py]'s driver, so
      [colors_enabled] is [False]: [color_print] prints its text as it is
      and [set_color] returns at once. *)

From Stdlib Require Import ZArith Bool Ascii.
From stdpp Require Import gmap strings list pretty sorting.

Local Open Scope Z_scope.

(** ** Python's [str] methods, on ASCII text *)

Module PyStr.

(** The double quote character, and a text between two of them. *)
Definition dq : ascii := "034"%char.
Definition quoted (s : string) : string := String dq (s +:+ String dq EmptyString).

Definition code (c : ascii) : nat := nat_of_ascii c.

(** [c.isspace()]: TAB..CR, FS..US and the blank. *)
Definition isspace (c : ascii) : bool :=
  let n := code c in
  ((9 <=? n) && (n <=? 13) || (28 <=? n) && (n <=? 32))%nat.

Definition isupper (c : ascii) : bool :=
  let n := code c in ((65 <=? n) && (n <=? 90))%nat.

Definition islower (c : ascii) : bool :=
  let n := code c in ((97 <=? n) && (n <=? 122))%nat.

Definition isalpha_char (c : ascii) : bool := isupper c || islower c.

Definition isdigit_char (c : ascii) : bool :=
  let n := code c in ((48 <=? n) && (n <=? 57))%nat.

Definition isalnum_char (c : ascii) : bool := isalpha_char c || isdigit_char c.

(** The class [\w] of [re]. *)
Definition isword_char (c : ascii) : bool :=
  isalnum_char c || bool_decide (c = "_"%char).

Definition upper_char (c : ascii) : ascii :=
  if islower c then ascii_of_nat (code c - 32) else c.

Definition lower_char (c : ascii) : ascii :=
  if isupper c then ascii_of_nat (code c + 32) else c.

Fixpoint map (f : ascii -> ascii) (s : string) : string :=
  match s with
  | EmptyString => EmptyString
  | String c s' => String (f c) (map f s')
  end.

Definition upper : string -> string := map upper_char.
Definition lower : string -> string := map lower_char.

Fixpoint all (p : ascii -> bool) (s : string) : bool :=
  match s with
  | EmptyString => true
  | String c s' => p c && all p s'
  end.

Definition nonempty (s : string) : bool :=
  match s with EmptyString => false | String _ _ => true end.

(** [s.isalpha()], [s.isdigit()]: false on the empty text. *)
Definition isalpha (s : string) : bool := nonempty s && all isalpha_char s.
Definition isdigit (s : string) : bool := nonempty s && all isdigit_char s.

Fixpoint lstrip (s : string) : string :=
  match s with
  | String c s' => if isspace c then lstrip s' else s
  | EmptyString => EmptyString
  end.

Definition rstrip (s : string) : string := String.rev (lstrip (String.rev s)).

Definition strip (s : string) : string := rstrip (lstrip s).

(** [s.strip(chars)] for a one-character set. *)
Fixpoint lstrip_char (a : ascii) (s : string) : string :=
  match s with
  | String c s' => if bool_decide (c = a) then lstrip_char a s' else s
  | EmptyString => EmptyString
  end.

Definition strip_char (a : ascii) (s : string) : string :=
  String.rev (lstrip_char a (String.rev (lstrip_char a s))).

Definition startswith (p s : string) : bool := String.prefix p s.

Definition endswith (p s : string) : bool :=
  String.prefix (String.rev p) (String.rev s).

(** [s[n:]] *)
Fixpoint drop (n : nat) (s : string) : string :=
  match n, s with
  | O, _ => s
  | S n', String _ s' => drop n' s'
  | S _, EmptyString => EmptyString
  end.

(** [s[:n]] *)
Fixpoint take (n : nat) (s : string) : string :=
  match n, s with
  | O, _ => EmptyString
  | S n', String c s' => String c (take n' s')
  | S _, EmptyString => EmptyString
  end.

(** [s[1:-1]] *)
Definition inner (s : string) : string :=
  take (String.length s - 2) (drop 1 s).

(** [s.find(sub)]: [None] is Python's [-1]. *)
Fixpoint find (sub s : string) : option nat :=
  if String.prefix sub s then Some O
  else match s with
       | EmptyString => None
       | String _ s' => S <$> find sub s'
       end.

(** [sub in s] *)
Definition contains (sub s : string) : bool := bool_decide (is_Some (find sub s)).

(** [s.split(sep, 1)] when [sep in s]: the text before the first [sep] and
    the text after it. *)
Definition split_once (sep s : string) : option (string * string) :=
  i ← find sep s; Some (take i s, drop (i + String.length sep) s).

(** [s.split(c)] for a one-character separator. *)
Fixpoint split_go (a : ascii) (cur : string) (s : string) : list string :=
  match s with
  | EmptyString => [String.rev cur]
  | String c s' =>
      if bool_decide (c = a) then String.rev cur :: split_go a EmptyString s'
      else split_go a (String c cur) s'
  end.

Definition split (a : ascii) (s : string) : list string := split_go a EmptyString s.

(** [s.replace(old, new)] for a non-empty [old]: left to right, occurrences
    that do not overlap. [skip] counts the characters of a matched [old]
    still to pass over. *)
Fixpoint replace_go (old new : string) (skip : nat) (s : string) : string :=
  match s with
  | EmptyString => EmptyString
  | String c s' =>
      match skip with
      | S k => replace_go old new k s'
      | O =>
          if String.prefix old s
          then new +:+ replace_go old new (String.length old - 1) s'
          else String c (replace_go old new O s')
      end
  end.

(** With an empty [old] Python puts [new] before every character and at the
    end. *)
Fixpoint intersperse (new s : string) : string :=
  match s with
  | EmptyString => new
  | String c s' => new +:+ String c (intersperse new s')
  end.

Definition replace (old new s : string) : string :=
  match old with
  | EmptyString => intersperse new s
  | String _ _ => replace_go old new O s
  end.

(** [c * n] *)
Fixpoint repeat (c : ascii) (n : nat) : string :=
  match n with O => EmptyString | S n' => String c (repeat c n') end.

(** [int(s)] on a text of ASCII digits. *)
Definition digit_value (c : ascii) : Z := Z.of_nat (code c - 48).

Fixpoint digits_value (acc : Z) (s : string) : Z :=
  match s with
  | EmptyString => acc
  | String c s' => digits_value (10 * acc + digit_value c) s'
  end.

End PyStr.

(** ** Results, values and the Python host *)

(** The exceptions the interpreter's own code and the builtins it calls
    raise, all of them subclasses of [Exception]. [SystemExit] and
    [KeyboardInterrupt], which pass [except Exception], are not modelled:
    nothing in the interpreter raises them unless a text handed to [eval]
    does. *)
Inductive exn :=
  | IndexError | ValueError | TypeError | ZeroDivisionError | OverflowError
  | SyntaxError | NameError | EOFError | KeyError.

(** The answer of a Python call: a value, an exception, or no answer within
    the fuel. *)
Inductive result (A : Type) :=
  | Ok (a : A)
  | Raise (e : exn)
  | Diverge.

Arguments Ok {A} a.
Arguments Raise {A} e.
Arguments Diverge {A}.

Global Instance result_ret : MRet result := fun A a => Ok a.

Global Instance result_bind : MBind result := fun A B k r =>
  match r with
  | Ok a => k a
  | Raise e => Raise e
  | Diverge => Diverge
  end.

(** [try: r  except: handler] *)
Definition catch {A} (r : result A) (handler : result A) : result A :=
  match r with
  | Raise _ => handler
  | _ => r
  end.

(** What a BASIC variable holds: a Python [int], [float] or [str]. *)
Inductive value (F : Type) :=
  | VInt (z : Z)
  | VFloat (f : F)
  | VStr (s : string).

Arguments VInt {F} z.
Arguments VFloat {F} f.
Arguments VStr {F} s.

(** The builtins of the Python host, as functions of their arguments.
    For [eval] this is the behaviour of Python on a text without names (no
    letter and no underscore, see [nameless] below): such a text reads
    nothing of the frame it is evaluated in and calls nothing. A text with
    a name in it can read the local variables of [evaluate_expression]
    ([self], [expr], [var_name], [var_value]) and change the interpreter
    through [self]; there the model says what follows from the answer of
    [eval], not what else the text did. The properties below that depend
    on this either take the answer of the evaluator as a hypothesis or ask
    for texts without names.
    - [py_eval text] is [r = eval(text)] followed by
      [int(r) if r == int(r) else r], the last two lines of the [try] block
      of [evaluate_expression];
    - [py_truth text] is the truth value of [eval(text)], as tested by
      [handle_if_then];
    - [py_call name args] is the call of [self.functions[name]] on [args];
    - [float_of_str], [int_of_float], [int_of_str] are [float(s)], [int(x)]
      and [int(s)];
    - [float_add], [float_lt], [float_le] are [+], [<] and [<=] when an
      operand is a float. *)
Class Host := {
  float : Type;
  float_str : float -> string;
  py_eval : string -> result (value float);
  py_truth : string -> result bool;
  py_call : string -> list (value float) -> result (value float);
  float_of_str : string -> result float;
  int_of_float : float -> result Z;
  int_of_str : string -> result Z;
  float_add : value float -> value float -> result (value float);
  float_lt : value float -> value float -> result bool;
  float_le : value float -> value float -> result bool;
}.

(** ** A dict that keeps insertion order ([self.variables]) *)

Module Dict.

Fixpoint get {V} (k : string) (d : list (string * V)) : option V :=
  match d with
  | [] => None
  | (k', v) :: d' => if bool_decide (k' = k) then Some v else get k d'
  end.

(** [d[k] = v]: a bound key keeps its place, a new key goes last. *)
Fixpoint set {V} (k : string) (v : V) (d : list (string * V)) : list (string * V) :=
  match d with
  | [] => [(k, v)]
  | (k', v') :: d' =>
      if bool_decide (k' = k) then (k, v) :: d' else (k', v') :: set k v d'
  end.

End Dict.

(** ** The interpreter state *)

Section State.
Context {F : Type}.

(** An entry of [self.for_loops]. *)
Record for_loop := {
  loop_start : value F;
  loop_end : value F;
  loop_step : value F;
  loop_current : value F;
  loop_return_line : option Z;
}.

(** The attributes of a [C64Basic] object, with the standard streams and
    the files of the working directory. [program_counter] is an [int] or
    [None]; [stdout] lists the printed texts, oldest first. *)
Record state := {
  variables : list (string * value F);
  lines : gmap Z string;
  current_line : Z;
  program_counter : option Z;
  running : bool;
  for_loops : gmap string for_loop;
  gosub_stack : list (option Z);
  stdin : list string;
  stdout : list string;
  files : gmap string (list string);
}.

Definition with_variables (v : list (string * value F)) (st : state) : state :=
  {| variables := v; lines := lines st; current_line := current_line st;
     program_counter := program_counter st; running := running st;
     for_loops := for_loops st; gosub_stack := gosub_stack st;
     stdin := stdin st; stdout := stdout st; files := files st |}.

Definition with_lines (l : gmap Z string) (st : state) : state :=
  {| variables := variables st; lines := l; current_line := current_line st;
     program_counter := program_counter st; running := running st;
     for_loops := for_loops st; gosub_stack := gosub_stack st;
     stdin := stdin st; stdout := stdout st; files := files st |}.

Definition with_program_counter (pc : option Z) (st : state) : state :=
  {| variables := variables st; lines := lines st; current_line := current_line st;
     program_counter := pc; running := running st;
     for_loops := for_loops st; gosub_stack := gosub_stack st;
     stdin := stdin st; stdout := stdout st; files := files st |}.

Definition with_running (r : bool) (st : state) : state :=
  {| variables := variables st; lines := lines st; current_line := current_line st;
     program_counter := program_counter st; running := r;
     for_loops := for_loops st; gosub_stack := gosub_stack st;
     stdin := stdin st; stdout := stdout st; files := files st |}.

Definition with_for_loops (f : gmap string for_loop) (st : state) : state :=
  {| variables := variables st; lines := lines st; current_line := current_line st;
     program_counter := program_counter st; running := running st;
     for_loops := f; gosub_stack := gosub_stack st;
     stdin := stdin st; stdout := stdout st; files := files st |}.

Definition with_gosub_stack (g : list (option Z)) (st : state) : state :=
  {| variables := variables st; lines := lines st; current_line := current_line st;
     program_counter := program_counter st; running := running st;
     for_loops := for_loops st; gosub_stack := g;
     stdin := stdin st; stdout := stdout st; files := files st |}.

Definition with_stdin (i : list string) (st : state) : state :=
  {| variables := variables st; lines := lines st; current_line := current_line st;
     program_counter := program_counter st; running := running st;
     for_loops := for_loops st; gosub_stack := gosub_stack st;
     stdin := i; stdout := stdout st; files := files st |}.

Definition with_stdout (o : list string) (st : state) : state :=
  {| variables := variables st; lines := lines st; current_line := current_line st;
     program_counter := program_counter st; running := running st;
     for_loops := for_loops st; gosub_stack := gosub_stack st;
     stdin := stdin st; stdout := o; files := files st |}.

Definition with_files (f : gmap string (list string)) (st : state) : state :=
  {| variables := variables st; lines := lines st; current_line := current_line st;
     program_counter := program_counter st; running := running st;
     for_loops := for_loops st; gosub_stack := gosub_stack st;
     stdin := stdin st; stdout := stdout st; files := f |}.

(** [self.variables[name] = v] *)
Definition set_variable (name : string) (v : value F) (st : state) : state :=
  with_variables (Dict.set name v (variables st)) st.

(** [__init__], on given streams and files. *)
Definition init (input : list string) (fs : gmap string (list string)) : state :=
  {| variables := [("TI", VInt 0); ("TI$", VStr "000000"); ("CO", VInt 0); ("BG", VInt 6)];
     lines := ∅; current_line := 0; program_counter := Some 0; running := false;
     for_loops := ∅; gosub_stack := []; stdin := input; stdout := []; files := fs |}.

(** The end of a handler: it returned, it raised, or it ran out of fuel. *)
Inductive outcome :=
  | Done (st : state)
  | Raised (e : exn) (st : state)
  | Diverged.

(** Use the answer of an evaluation made in state [st]. *)
Definition lift {A} (r : result A) (st : state) (k : A -> outcome) : outcome :=
  match r with
  | Ok a => k a
  | Raise e => Raised e st
  | Diverge => Diverged
  end.

(** ** Printing *)

Definition nl : string := String "010"%char "".

(** [color_print], colours off. *)
Definition color_print (text : string) (st : state) : state :=
  with_stdout (stdout st ++ [text]) st.

Definition print_ready (st : state) : state := color_print ("READY." +:+ nl) st.

Definition print_error (message : string) (st : state) : state :=
  color_print ("?" +:+ message +:+ nl) st.

(** [print_banner], colours off. *)
Definition print_banner (st : state) : state :=
  let st := color_print ("    **** COMMODORE 64 BASIC V2 ****" +:+ nl) st in
  let st := color_print (" 64K RAM SYSTEM  38911 BASIC BYTES FREE" +:+ nl) st in
  let st := color_print nl st in
  let st := color_print ("READY." +:+ nl) st in
  color_print nl st.

(** [clear_screen], colours off: [print] of fifty line ends. *)
Definition clear_screen (st : state) : state :=
  with_stdout (stdout st ++ [PyStr.repeat "010"%char 50 +:+ nl]) st.

End State.

Arguments for_loop F : clear implicits.
Arguments state F : clear implicits.
Arguments outcome F : clear implicits.

(** ** The expression evaluator *)

Section Evaluator.
Context {H : Host}.

Abbreviation val := (value float).
Abbreviation for_loop := (for_loop float).
Abbreviation state := (state float).
Abbreviation outcome := (outcome float).

(** [str(v)] *)
Definition py_str (v : val) : string :=
  match v with
  | VInt z => pretty z
  | VFloat f => float_str f
  | VStr s => s
  end.

(** [int(v)] *)
Definition py_int (v : val) : result Z :=
  match v with
  | VInt z => Ok z
  | VFloat f => int_of_float f
  | VStr s => int_of_str s
  end.

(** The keys of [self.functions]. *)
Definition functions : list string :=
  ["ABS"; "SQR"; "SIN"; "COS"; "TAN"; "LOG"; "EXP"; "INT"; "RND"; "LEN";
   "CHR$"; "ASC"; "STR$"; "VAL"].

Fixpoint take_while (p : ascii -> bool) (s : string) : string :=
  match s with
  | String c s' => if p c then String c (take_while p s') else EmptyString
  | EmptyString => EmptyString
  end.

(** The index of the last [a] in [s]. *)
Fixpoint rfind_char (a : ascii) (s : string) : option nat :=
  match s with
  | EmptyString => None
  | String c s' =>
      match rfind_char a s' with
      | Some i => Some (S i)
      | None => if bool_decide (c = a) then Some O else None
      end
  end.

(** The [re.match] of the function-call branch, groups 1 and 2: a run of
    word characters, optional blanks, an opening parenthesis, then any text
    of the same line up to its last closing parenthesis (the star is
    greedy). *)
Definition func_match (expr : string) : option (string * string) :=
  let name := take_while PyStr.isword_char expr in
  if PyStr.nonempty name then
    match PyStr.lstrip (PyStr.drop (String.length name) expr) with
    | String c rest =>
        if bool_decide (c = "("%char) then
          let line := take_while (fun c => negb (bool_decide (c = "010"%char))) rest in
          i ← rfind_char ")"%char line; Some (name, PyStr.take i line)
        else None
    | EmptyString => None
    end
  else None.

(** The argument loop of the function-call branch: [args_str] cut at the
    commas outside parentheses. [current_arg] is kept reversed. *)
Fixpoint split_args (paren_count : Z) (current_arg : string) (args_str : string)
  : list string :=
  match args_str with
  | EmptyString =>
      if PyStr.nonempty current_arg then [PyStr.strip (String.rev current_arg)] else []
  | String char rest =>
      if bool_decide (char = "("%char) then
        split_args (paren_count + 1) (String char current_arg) rest
      else if bool_decide (char = ")"%char) then
        split_args (paren_count - 1) (String char current_arg) rest
      else if bool_decide (char = ","%char) && (paren_count =? 0) then
        PyStr.strip (String.rev current_arg) :: split_args paren_count EmptyString rest
      else split_args paren_count (String char current_arg) rest
  end.

(** [for arg in args: if arg: evaluated_args.append(self.evaluate_expression(arg))] *)
Fixpoint evaluate_args (rec : string -> result val) (args : list string)
  : result (list val) :=
  match args with
  | [] => Ok []
  | arg :: rest =>
      if PyStr.nonempty arg then
        v ← rec arg; vs ← evaluate_args rec rest; Ok (v :: vs)
      else evaluate_args rec rest
  end.

(** [evaluated_args[0]] *)
Definition first_arg (evaluated_args : list val) : result val :=
  match evaluated_args with
  | v :: _ => Ok v
  | [] => Raise IndexError
  end.

(** The [if/elif] chain that calls the function. *)
Definition call_function (func_name : string) (evaluated_args : list val)
  : result val :=
  if bool_decide (func_name = "RND") then py_call func_name []
  else if bool_decide (func_name ∈ ["CHR$"; "STR$"]) then
    a ← first_arg evaluated_args; py_call func_name [a]
  else if bool_decide (func_name = "ASC") then
    a ← first_arg evaluated_args; py_call func_name [a]
  else if bool_decide (func_name = "LEN") then
    a ← first_arg evaluated_args;
    Ok (VInt (Z.of_nat (String.length (py_str a))))
  else py_call func_name evaluated_args.

(** The text put in place of a variable name: the value between double
    quotes if it is a [str], else [str] of it. *)
Definition value_text (var_value : val) : string :=
  match var_value with
  | VStr s => PyStr.quoted s
  | _ => py_str var_value
  end.

(** The loop that replaces every variable name by the text of its value, in
    the order of the dict. *)
Definition substitute_one (expr : string) (binding : string * val) : string :=
  PyStr.replace binding.1 (value_text binding.2) expr.

Definition substitute (variables : list (string * val)) (expr : string) : string :=
  foldl substitute_one expr variables.

Definition is_quoted (s : string) : bool :=
  PyStr.startswith (String PyStr.dq "") s && PyStr.endswith (String PyStr.dq "") s.

(** The string concatenation loop over [expr.split('+')]. *)
Fixpoint concat_parts (rec : string -> result val) (parts : list string)
  (acc : string) : result val :=
  match parts with
  | [] => Ok (VStr acc)
  | part :: rest =>
      let part := PyStr.strip part in
      if is_quoted part then concat_parts rec rest (acc +:+ PyStr.inner part)
      else v ← rec part; concat_parts rec rest (acc +:+ py_str v)
  end.

(** The [try] block: substitution, then concatenation or [eval]. *)
Definition arithmetic (rec : string -> result val) (variables : list (string * val))
  (expr : string) : result val :=
  let expr := substitute variables expr in
  if PyStr.contains "+" expr && PyStr.contains (String PyStr.dq "") expr then
    concat_parts rec (PyStr.split "+" expr) ""
  else py_eval expr.

(** The test of the variable branch:
    [expr.isalpha() or (expr[0].isalpha() and all(c.isalnum() or c == '$' for c in expr[1:]))];
    [expr[0]] raises on the empty text. *)
Definition is_variable (expr : string) : result bool :=
  if PyStr.isalpha expr then Ok true
  else match expr with
       | EmptyString => Raise IndexError
       | String c rest =>
           Ok (PyStr.isalpha_char c
               && PyStr.all (fun c => PyStr.isalnum_char c || bool_decide (c = "$"%char)) rest)
       end.

(** The function the text calls: the groups of the match, the name in upper
    case, when that name is a key of [self.functions]; [None] when control
    falls through to the arithmetic. *)
Definition called_function (expr : string) : option (string * string) :=
  match func_match expr with
  | Some (name, args_str) =>
      let func_name := PyStr.upper name in
      if bool_decide (func_name ∈ functions) then Some (func_name, args_str) else None
  | None => None
  end.

(** The body of [evaluate_expression]; [rec] is the method itself at the
    recursive calls. *)
Definition evaluate_expression_body (rec : string -> result val)
  (variables : list (string * val)) (expr : string) : result val :=
  let expr := PyStr.strip expr in
  if is_quoted expr then Ok (VStr (PyStr.inner expr))
  else
    b ← is_variable expr;
    if b : bool then
      match Dict.get expr variables with
      | Some v => Ok v
      | None => Ok (if PyStr.endswith "$" expr then VStr "" else VInt 0)
      end
    else
      match called_function expr with
      | Some (func_name, args_str) =>
          evaluated_args ← evaluate_args rec (split_args 0 "" args_str);
          call_function func_name evaluated_args
      | None => catch (arithmetic rec variables expr) (Ok (VInt 0))
      end.

Fixpoint evaluate_expression (fuel : nat) (variables : list (string * val))
  (expr : string) : result val :=
  evaluate_expression_body
    (match fuel with
     | O => fun _ => Diverge
     | S fuel' => evaluate_expression fuel' variables
     end)
    variables expr.

(** Python's [+], [<] and [<=] on the values a variable can hold. *)
Definition py_add (a b : val) : result val :=
  match a, b with
  | VInt x, VInt y => Ok (VInt (x + y))
  | VStr s, VStr t => Ok (VStr (s +:+ t))
  | VStr _, _ | _, VStr _ => Raise TypeError
  | _, _ => float_add a b
  end.

Definition py_lt (a b : val) : result bool :=
  match a, b with
  | VInt x, VInt y => Ok (x <? y)
  | VStr s, VStr t => Ok (String.ltb s t)
  | VStr _, _ | _, VStr _ => Raise TypeError
  | _, _ => float_lt a b
  end.

Definition py_le (a b : val) : result bool :=
  match a, b with
  | VInt x, VInt y => Ok (x <=? y)
  | VStr s, VStr t => Ok (String.leb s t)
  | VStr _, _ | _, VStr _ => Raise TypeError
  | _, _ => float_le a b
  end.

Definition py_gt (a b : val) : result bool := py_lt b a.
Definition py_ge (a b : val) : result bool := py_le b a.

(** ** The statement handlers *)

(** The character loop of [handle_print]: the expressions and the
    separators between them, in order. [current_part] is kept reversed. *)
Fixpoint print_parts (in_string : bool) (paren_count : Z) (current_part : string)
  (args : string) : list string :=
  match args with
  | EmptyString =>
      if PyStr.nonempty current_part then [PyStr.strip (String.rev current_part)] else []
  | String char rest =>
      if bool_decide (char = PyStr.dq) then
        print_parts (negb in_string) paren_count (String char current_part) rest
      else if bool_decide (char = "("%char) then
        print_parts in_string (paren_count + 1) (String char current_part) rest
      else if bool_decide (char = ")"%char) then
        print_parts in_string (paren_count - 1) (String char current_part) rest
      else if bool_decide (char ∈ [";"%char; ","%char]) && negb in_string
              && (paren_count =? 0) then
        PyStr.strip (String.rev current_part) :: String char ""
          :: print_parts in_string paren_count EmptyString rest
      else print_parts in_string paren_count (String char current_part) rest
  end.

(** The loop that builds [output] from the parts. *)
Fixpoint print_output (eval : string -> result val) (parts : list string)
  (output : string) : result string :=
  match parts with
  | [] => Ok output
  | part :: rest =>
      if bool_decide (part = ";") then print_output eval rest output
      else if bool_decide (part = ",") then
        print_output eval rest
          (output +:+ PyStr.repeat " "%char (16 - String.length output mod 16))
      else v ← eval part; print_output eval rest (output +:+ py_str v)
  end.

Definition handle_print (fuel : nat) (args : string) (st : state) : outcome :=
  if negb (PyStr.nonempty args) then Done (color_print nl st)
  else
    let ends_with_semicolon := PyStr.endswith ";" (PyStr.strip args) in
    let parts := print_parts false 0 "" args in
    lift (print_output (evaluate_expression fuel (variables st)) parts "") st
      (fun output =>
         let output := if ends_with_semicolon then output else output +:+ nl in
         Done (color_print output st)).

(** One variable of [handle_input]: text for a name in [$], else
    [float(text)], and 0 when that raises. *)
Definition store_input (var_name text : string) (st : state) : outcome :=
  if PyStr.endswith "$" var_name then Done (set_variable var_name (VStr text) st)
  else match float_of_str text with
       | Ok f => Done (set_variable var_name (VFloat f) st)
       | Raise _ => Done (set_variable var_name (VInt 0) st)
       | Diverge => Diverged
       end.

(** [for i, var_name in enumerate(var_names): if i < len(inputs): ...] *)
Fixpoint store_inputs (var_names inputs : list string) (st : state) : outcome :=
  match var_names, inputs with
  | var_name :: var_names', text :: inputs' =>
      match store_input var_name (PyStr.strip text) st with
      | Done st' => store_inputs var_names' inputs' st'
      | o => o
      end
  | _, _ => Done st
  end.

Definition handle_input (args : string) (st : state) : outcome :=
  let '(prompt, args) :=
    if PyStr.startswith (String PyStr.dq "") args then
      match PyStr.find (String PyStr.dq "") (PyStr.drop 1 args) with
      | Some i => (PyStr.take i (PyStr.drop 1 args), PyStr.strip (PyStr.drop (i + 2) args))
      | None => (EmptyString, args)
      end
    else (EmptyString, args) in
  let st := color_print (if PyStr.nonempty prompt then prompt else "? ") st in
  match stdin st with
  | [] => Done (print_error "REDO FROM START" st)
  | user_input :: rest =>
      let st := with_stdin rest st in
      let var_names := PyStr.strip <$> PyStr.split ","%char args in
      match var_names with
      | [var_name] => store_input var_name user_input st
      | _ => store_inputs var_names (PyStr.split ","%char user_input) st
      end
  end.

Definition handle_assignment (fuel : nat) (command : string) (st : state) : outcome :=
  let command := if PyStr.startswith "LET " command then PyStr.drop 4 command else command in
  match PyStr.split_once "=" command with
  | Some (var_part, expr_part) =>
      let var_name := PyStr.strip var_part in
      let expr := PyStr.strip expr_part in
      lift (evaluate_expression fuel (variables st) expr) st
        (fun result => Done (set_variable var_name result st))
  | None => Done st
  end.

(** [rec] is [execute_command] at the call on the action. The [try] block
    spans that call, so what the action raises is reported here. *)
Definition handle_if_then (rec : string -> state -> outcome) (command : string)
  (st : state) : outcome :=
  let if_part := PyStr.strip (PyStr.drop 2 command) in
  match PyStr.find "THEN" if_part with
  | None => Done (print_error "SYNTAX ERROR" st)
  | Some then_index =>
      let condition := PyStr.strip (PyStr.take then_index if_part) in
      let action := PyStr.strip (PyStr.drop (then_index + 4) if_part) in
      let condition := PyStr.replace "=" "==" condition in
      let condition := PyStr.replace "<>" "!=" condition in
      let condition := substitute (variables st) condition in
      match py_truth condition with
      | Ok true =>
          match rec action st with
          | Raised _ st' => Done (print_error "SYNTAX ERROR" st')
          | o => o
          end
      | Ok false => Done st
      | Raise _ => Done (print_error "SYNTAX ERROR" st)
      | Diverge => Diverged
      end
  end.

Definition handle_for (fuel : nat) (command : string) (st : state) : outcome :=
  let for_part := PyStr.strip (PyStr.drop 3 command) in
  match PyStr.split_once "=" for_part with
  | None => Done (print_error "SYNTAX ERROR" st)
  | Some (var_part, rest) =>
      let var_name := PyStr.strip var_part in
      match PyStr.split_once " TO " rest with
      | None => Done (print_error "SYNTAX ERROR" st)
      | Some (to_part, step_part) =>
          let eval := evaluate_expression fuel (variables st) in
          lift (eval (PyStr.strip to_part)) st (fun start_value =>
          lift (match PyStr.split_once " STEP " step_part with
                | Some (step_expr, step_value) =>
                    end_value ← eval (PyStr.strip step_expr);
                    step ← eval (PyStr.strip step_value);
                    Ok (end_value, step)
                | None =>
                    end_value ← eval (PyStr.strip step_part);
                    Ok (end_value, VInt 1)
                end) st (fun '(end_value, step) =>
          let loop := {| loop_start := start_value; loop_end := end_value;
                         loop_step := step; loop_current := start_value;
                         loop_return_line := program_counter st |} in
          Done (set_variable var_name start_value
                  (with_for_loops (<[var_name := loop]> (for_loops st)) st))))
      end
  end.

Definition handle_next (var_name : string) (st : state) : outcome :=
  match for_loops st !! var_name with
  | None => Done (print_error "NEXT WITHOUT FOR ERROR" st)
  | Some loop =>
      lift (py_add (loop_current loop) (loop_step loop)) st (fun current =>
      let loop := {| loop_start := loop_start loop; loop_end := loop_end loop;
                     loop_step := loop_step loop; loop_current := current;
                     loop_return_line := loop_return_line loop |} in
      let st := with_for_loops (<[var_name := loop]> (for_loops st)) st in
      let st := set_variable var_name current st in
      let step := loop_step loop in
      let end_value := loop_end loop in
      (* Check if loop should continue *)
      lift (positive ← py_gt step (VInt 0);
            if positive : bool then py_le current end_value
            else py_ge current end_value) st (fun continue =>
      let st := if continue : bool
                then with_program_counter (loop_return_line loop) st else st in
      (* Remove loop if finished *)
      lift (positive ← py_gt step (VInt 0);
            over ← (if positive : bool then py_gt current end_value else Ok false);
            if over : bool then Ok true
            else negative ← py_lt step (VInt 0);
                 if negative : bool then py_lt current end_value else Ok false)
        st (fun finished =>
      Done (if finished : bool
            then with_for_loops (delete var_name (for_loops st)) st else st))))
  end.

(** [sorted(self.lines.keys())] *)
Definition line_numbers (st : state) : list Z :=
  merge_sort Z.le (fst <$> map_to_list (lines st)).

Definition list_program (st : state) : state :=
  if bool_decide (lines st = ∅) then print_ready st
  else
    foldl (fun st line_num =>
             color_print (pretty line_num +:+ " " +:+ default "" (lines st !! line_num) +:+ nl) st)
          st (line_numbers st).

(** The line after [line_num] in the sorted list, [None] after the last. *)
Fixpoint next_line (line_num : Z) (numbers : list Z) : option Z :=
  match numbers with
  | [] => None
  | n :: rest => if bool_decide (n = line_num) then head rest else next_line line_num rest
  end.

(** The head of the [while] loop of [run_program]: the loop goes on when
    [running] is set and [program_counter] is a line of the program; the
    command of that line is fetched and [program_counter] moves to the next
    line before the command is executed. *)
Definition fetch (st : state) : option (string * state) :=
  match program_counter st with
  | Some line_num =>
      match lines st !! line_num with
      | Some command =>
          if running st
          then Some (command,
                     with_program_counter (next_line line_num (line_numbers st)) st)
          else None
      | None => None
      end
  | None => None
  end.

(** The [while] loop of [run_program]; [exec] is [execute_command]. *)
Fixpoint run_loop (exec : string -> state -> outcome) (fuel : nat) (st : state)
  : outcome :=
  match fetch st with
  | None => Done st
  | Some (command, st) =>
      match fuel with
      | O => Diverged
      | S fuel' =>
          match exec command st with
          | Done st' =>
              match program_counter st' with
              | None => Done st'
              | Some _ => run_loop exec fuel' st'
              end
          | o => o
          end
      end
  end.

Definition run_program (exec : string -> state -> outcome) (fuel : nat) (st : state)
  : outcome :=
  match line_numbers st with
  | [] => Done (print_ready st)
  | first :: _ =>
      let st := with_running true st in
      let st := with_program_counter (Some first) st in
      match run_loop exec fuel st with
      | Done st' => Done (print_ready st')
      | o => o
      end
  end.

(** [parse_line]: the line number, if the line starts with one, and the
    command. *)
Definition parse_line (line : string) : option Z * string :=
  let line := PyStr.strip line in
  if negb (PyStr.nonempty line) then (None, EmptyString)
  else
    let '(first, command) :=
      match PyStr.split_once " " line with
      | Some (a, b) => (a, b)
      | None => (line, EmptyString)
      end in
    if PyStr.isdigit first then (Some (PyStr.digits_value 0 first), command)
    else (None, line).

(** The name of the file of LOAD and SAVE. *)
Definition file_name (args : string) : string :=
  let filename := PyStr.strip_char PyStr.dq (PyStr.strip args) in
  if PyStr.endswith ".bas" (PyStr.lower filename) then filename
  else filename +:+ ".bas".

Definition load_line (l : gmap Z string) (line : string) : gmap Z string :=
  let line := PyStr.strip line in
  if PyStr.nonempty line then
    match parse_line line with
    | (Some line_num, command) =>
        if PyStr.nonempty command then <[line_num := command]> l else l
    | (None, _) => l
    end
  else l.

Definition handle_load (args : string) (st : state) : state :=
  if negb (PyStr.nonempty (PyStr.strip_char PyStr.dq (PyStr.strip args))) then
    print_error "MISSING FILENAME" st
  else
    let filename := file_name args in
    match files st !! filename with
    | None => print_error ("FILE NOT FOUND: " +:+ filename) st
    | Some content =>
        let st := with_lines (foldl load_line ∅ content) st in
        let st := color_print ("LOADING " +:+ PyStr.quoted filename +:+ nl) st in
        color_print ("READY." +:+ nl) st
    end.

Definition handle_save (args : string) (st : state) : state :=
  if negb (PyStr.nonempty (PyStr.strip_char PyStr.dq (PyStr.strip args))) then
    print_error "MISSING FILENAME" st
  else
    let filename := file_name args in
    let content :=
      (fun line_num => pretty line_num +:+ " " +:+ default "" (lines st !! line_num) +:+ nl)
        <$> line_numbers st in
    let st := with_files (<[filename := content]> (files st)) st in
    let st := color_print ("SAVING " +:+ PyStr.quoted filename +:+ nl) st in
    color_print ("READY." +:+ nl) st.

(** [int(self.evaluate_expression(text))] *)
Definition evaluate_int (fuel : nat) (text : string) (st : state) : result Z :=
  v ← evaluate_expression fuel (variables st) text; py_int v.

Definition handle_color (fuel : nat) (args : string) (st : state) : outcome :=
  let r :=
    if PyStr.contains "," args then
      match PyStr.split ","%char args with
      | p0 :: p1 :: _ =>
          fg_color ← evaluate_int fuel (PyStr.strip p0) st;
          bg_color ← evaluate_int fuel (PyStr.strip p1) st;
          Ok (set_variable "BG" (VInt bg_color) (set_variable "CO" (VInt fg_color) st))
      | _ => Raise IndexError
      end
    else
      fg_color ← evaluate_int fuel args st;
      Ok (set_variable "CO" (VInt fg_color) st) in
  match r with
  | Ok st' => Done st'
  | Raise _ => Done (print_error "SYNTAX ERROR" st)
  | Diverge => Diverged
  end.

Definition handle_screen (fuel : nat) (args : string) (st : state) : outcome :=
  match evaluate_int fuel args st with
  | Ok bg_color => Done (set_variable "BG" (VInt bg_color) st)
  | Raise _ => Done (print_error "SYNTAX ERROR" st)
  | Diverge => Diverged
  end.

(** WAIT: the delay is evaluated and slept; whatever is raised is passed
    over. Time is not part of the state. *)
Definition handle_wait (fuel : nat) (args : string) (st : state) : outcome :=
  match evaluate_expression fuel (variables st) args with
  | Diverge => Diverged
  | _ => Done st
  end.

(** ** Statement dispatch *)

(** The branches of the [if/elif] chain of [execute_command]. *)
Inductive branch :=
  | BEmpty | BPrint | BInput | BAssignment | BIfThen | BFor | BNext | BGoto
  | BGosub | BReturn | BRem | BCls | BList | BRun | BNew | BEnd | BWait
  | BPoke | BPeek | BSys | BLoad | BSave | BColor | BScreen | BSyntaxError.

(** The chain itself, on the stripped and upper-cased command. *)
Definition dispatch (command : string) : branch :=
  if negb (PyStr.nonempty command) then BEmpty
  else if PyStr.startswith "PRINT" command then BPrint
  else if PyStr.startswith "INPUT" command then BInput
  else if PyStr.contains "=" command then BAssignment
  else if PyStr.startswith "IF" command then BIfThen
  else if PyStr.startswith "FOR" command then BFor
  else if PyStr.startswith "NEXT" command then BNext
  else if PyStr.startswith "GOTO" command then BGoto
  else if PyStr.startswith "GOSUB" command then BGosub
  else if bool_decide (command = "RETURN") then BReturn
  else if PyStr.startswith "REM" command then BRem
  else if bool_decide (command = "CLS") then BCls
  else if PyStr.startswith "LIST" command then BList
  else if bool_decide (command = "RUN") then BRun
  else if bool_decide (command = "NEW") then BNew
  else if bool_decide (command = "END") then BEnd
  else if PyStr.startswith "WAIT" command then BWait
  else if PyStr.startswith "POKE" command then BPoke
  else if PyStr.startswith "PEEK" command then BPeek
  else if PyStr.startswith "SYS" command then BSys
  else if PyStr.startswith "LOAD" command then BLoad
  else if PyStr.startswith "SAVE" command then BSave
  else if PyStr.startswith "COLOR" command then BColor
  else if PyStr.startswith "SCREEN" command then BScreen
  else BSyntaxError.

(** The body of [execute_command]; [rec] is the method itself where a
    handler calls it back (the action of IF, the lines run by RUN). *)
Definition execute_command_body (rec : string -> state -> outcome) (fuel : nat)
  (command : string) (st : state) : outcome :=
  let original_command := PyStr.strip command in
  let command := PyStr.upper original_command in
  let rest n := PyStr.strip (PyStr.drop n original_command) in
  match dispatch command with
  | BEmpty => Done st
  | BPrint => handle_print fuel (rest 5%nat) st
  | BInput => handle_input (rest 5%nat) st
  | BAssignment => handle_assignment fuel original_command st
  | BIfThen => handle_if_then rec original_command st
  | BFor => handle_for fuel original_command st
  | BNext => handle_next (rest 4%nat) st
  | BGoto =>
      lift (evaluate_int fuel (rest 4%nat) st) st (fun target =>
      Done (with_program_counter (Some target) st))
  | BGosub =>
      lift (evaluate_int fuel (rest 5%nat) st) st (fun target =>
      let st := with_gosub_stack (gosub_stack st ++ [program_counter st]) st in
      Done (with_program_counter (Some target) st))
  | BReturn =>
      match reverse (gosub_stack st) with
      | top :: below =>
          Done (with_program_counter top (with_gosub_stack (reverse below) st))
      | [] => Done st
      end
  | BRem => Done st
  | BCls => Done (clear_screen st)
  | BList => Done (list_program st)
  | BRun => run_program rec fuel st
  | BNew =>
      let st := with_lines ∅ st in
      let st := with_variables [] st in
      let st := with_program_counter (Some 0) st in
      Done (print_ready st)
  | BEnd => Done (with_running false st)
  | BWait => handle_wait fuel (rest 4%nat) st
  | BPoke => Done (color_print ("POKE: Memory location simulated" +:+ nl) st)
  | BPeek => Done (color_print ("PEEK: Memory location simulated" +:+ nl) st)
  | BSys => Done (color_print ("SYS: Machine language call simulated" +:+ nl) st)
  | BLoad => Done (handle_load (rest 4%nat) st)
  | BSave => Done (handle_save (rest 4%nat) st)
  | BColor => handle_color fuel (rest 5%nat) st
  | BScreen => handle_screen fuel (rest 6%nat) st
  | BSyntaxError =>
      Done (print_error ("SYNTAX ERROR IN " +:+ pretty (current_line st)) st)
  end.

Fixpoint execute_command (fuel : nat) (command : string) (st : state) : outcome :=
  execute_command_body
    (match fuel with
     | O => fun _ _ => Diverged
     | S fuel' => execute_command fuel'
     end)
    fuel command st.

(** [add_line]: store or delete a numbered line, execute anything else. *)
Definition add_line (fuel : nat) (line : string) (st : state) : outcome :=
  match parse_line line with
  | (Some line_num, command) =>
      if PyStr.nonempty command then Done (with_lines (<[line_num := command]> (lines st)) st)
      else Done (with_lines (delete line_num (lines st)) st)
  | (None, command) => execute_command fuel command st
  end.

(** The [while True] loop of [run]: a line is read and handed to
    [add_line]; the end of the input and the line BYE leave the loop; any
    other exception is reported as a syntax error and the loop goes on.
    Interrupts from the keyboard are not modelled. [n] bounds the number of
    lines read. *)
Fixpoint main_loop (fuel : nat) (n : nat) (st : state) : outcome :=
  match stdin st with
  | [] => Done st
  | line :: rest =>
      match n with
      | O => Diverged
      | S n' =>
          let st := with_stdin rest st in
          if bool_decide (PyStr.upper line = "BYE") then
            Done (color_print ("GOODBYE!" +:+ nl) st)
          else
            match add_line fuel line st with
            | Done st' => main_loop fuel n' st'
            | Raised EOFError st' => Done st'
            | Raised _ st' => main_loop fuel n' (print_error "SYNTAX ERROR" st')
            | Diverged => Diverged
            end
      end
  end.

(** [run]: the banner, then the loop. Every turn of the loop takes a line
    from the input, so the number of lines bounds the turns. *)
Definition run (fuel : nat) (st : state) : outcome :=
  main_loop fuel (length (stdin st)) (print_banner st).

End Evaluator.

(** ** The host on integer texts

    The answers of the Python host on the texts the examples below hand
    to it: arithmetic on decimal integer literals with [+], [-], [*],
    parentheses, and division by zero. A text that Python rejects whatever
    its names mean (two operands in a row, an operator with no operand, an
    unbalanced parenthesis) raises [SyntaxError]. Everything else (names,
    other characters, a quotient, which is a float, the empty tuple, a
    leading star) is outside this fragment and gets no answer: [Diverge].
    There are no floats in it: [float] of a blank text raises, and has no
    answer on any other text. *)

Module IntHost.

Inductive token :=
  | TInt (z : Z)
  | TName (s : string)
  | TOp (c : ascii)
  | TUnknown.

(** A run of letters, digits, [_] and [.] read as one lexeme. *)
Definition classify (lexeme : string) : token :=
  if PyStr.isdigit lexeme then
    if PyStr.startswith "0" lexeme
       && negb (PyStr.all (fun c => bool_decide (c = "0"%char)) lexeme)
    then TUnknown
    else TInt (PyStr.digits_value 0 lexeme)
  else match lexeme with
       | String c _ =>
           if (PyStr.isalpha_char c || bool_decide (c = "_"%char))
              && PyStr.all PyStr.isword_char lexeme
           then TName lexeme else TUnknown
       | EmptyString => TUnknown
       end.

Definition flush (pending : string) : list token :=
  if PyStr.nonempty pending then [classify (String.rev pending)] else [].

Definition is_lexeme_char (c : ascii) : bool :=
  PyStr.isword_char c || bool_decide (c = "."%char).

Definition is_operator (c : ascii) : bool :=
  bool_decide (c ∈ ["+"; "-"; "*"; "/"; "("; ")"]%char).

(** [pending] is the lexeme being read, reversed. A doubled [*] or [/] is
    another operator of Python, not of this fragment. *)
Fixpoint lex (pending : string) (s : string) : list token :=
  match s with
  | EmptyString => flush pending
  | String c s' =>
      if is_lexeme_char c then lex (String c pending) s'
      else
        flush pending ++
        (if bool_decide (c = " "%char) || bool_decide (c = "009"%char) then lex "" s'
         else if is_operator c then
           match s' with
           | String c' _ =>
               if bool_decide (c' = c) && bool_decide (c ∈ ["*"; "/"]%char)
               then [TUnknown] else TOp c :: lex "" s'
           | EmptyString => [TOp c]
           end
         else [TUnknown])
  end.

Inductive pyexpr :=
  | EInt (z : Z)
  | ENeg (e : pyexpr)
  | EPos (e : pyexpr)
  | EBin (op : ascii) (l r : pyexpr).

(** The words of Python that continue an expression after an operand. *)
Definition continues (name : string) : bool :=
  bool_decide (name ∈ ["if"; "else"; "and"; "or"; "in"; "is"; "not"; "for"; "async"]).

(** What follows a complete operand where the fragment expects the end or
    a closing parenthesis: certainly an error, or unknown. *)
Definition after_operand {A} (ts : list token) : result A :=
  match ts with
  | TInt _ :: _ => Raise SyntaxError
  | TName n :: _ => if continues n then Diverge else Raise SyntaxError
  | TOp c :: _ => if bool_decide (c = ")"%char) then Raise SyntaxError else Diverge
  | TUnknown :: _ => Diverge
  | [] => Raise SyntaxError
  end.

(** The tokens start with a closing parenthesis: after an opening one
    this is the empty tuple. *)
Definition closes (ts : list token) : bool :=
  match ts with
  | TOp c :: _ => bool_decide (c = ")"%char)
  | _ => false
  end.

Fixpoint parse_sum (fuel : nat) (ts : list token) : result (pyexpr * list token) :=
  match fuel with
  | O => Diverge
  | S fuel' => '(l, ts1) ← parse_term fuel' ts; sum_rest fuel' l ts1
  end
with sum_rest (fuel : nat) (l : pyexpr) (ts : list token)
  : result (pyexpr * list token) :=
  match fuel with
  | O => Diverge
  | S fuel' =>
      match ts with
      | TOp c :: ts1 =>
          if bool_decide (c ∈ ["+"; "-"]%char) then
            '(r, ts2) ← parse_term fuel' ts1; sum_rest fuel' (EBin c l r) ts2
          else Ok (l, ts)
      | _ => Ok (l, ts)
      end
  end
with parse_term (fuel : nat) (ts : list token) : result (pyexpr * list token) :=
  match fuel with
  | O => Diverge
  | S fuel' => '(l, ts1) ← parse_factor fuel' ts; term_rest fuel' l ts1
  end
with term_rest (fuel : nat) (l : pyexpr) (ts : list token)
  : result (pyexpr * list token) :=
  match fuel with
  | O => Diverge
  | S fuel' =>
      match ts with
      | TOp c :: ts1 =>
          if bool_decide (c ∈ ["*"; "/"]%char) then
            '(r, ts2) ← parse_factor fuel' ts1; term_rest fuel' (EBin c l r) ts2
          else Ok (l, ts)
      | _ => Ok (l, ts)
      end
  end
with parse_factor (fuel : nat) (ts : list token) : result (pyexpr * list token) :=
  match fuel with
  | O => Diverge
  | S fuel' =>
      match ts with
      | TInt z :: ts1 => Ok (EInt z, ts1)
      | TOp c :: ts1 =>
          if bool_decide (c = "-"%char) then
            '(e, ts2) ← parse_factor fuel' ts1; Ok (ENeg e, ts2)
          else if bool_decide (c = "+"%char) then
            '(e, ts2) ← parse_factor fuel' ts1; Ok (EPos e, ts2)
          else if bool_decide (c = "("%char) then
            if closes ts1 then Diverge
            else
              '(e, ts2) ← parse_sum fuel' ts1;
              match ts2 with
              | TOp c' :: ts3 =>
                  if bool_decide (c' = ")"%char) then Ok (e, ts3) else Diverge
              | _ => after_operand ts2
              end
          else if bool_decide (c = "*"%char) then Diverge
          else Raise SyntaxError
      | TName _ :: _ => Diverge
      | TUnknown :: _ => Diverge
      | [] => Raise SyntaxError
      end
  end.

Definition parse (text : string) : result pyexpr :=
  let ts := lex "" text in
  '(e, rest) ← parse_sum (4 * length ts + 4) ts;
  match rest with
  | [] => Ok e
  | _ => after_operand rest
  end.

Fixpoint eval_expr (e : pyexpr) : result Z :=
  match e with
  | EInt z => Ok z
  | ENeg e => z ← eval_expr e; Ok (- z)
  | EPos e => eval_expr e
  | EBin op l r =>
      a ← eval_expr l; b ← eval_expr r;
      if bool_decide (op = "+"%char) then Ok (a + b)
      else if bool_decide (op = "-"%char) then Ok (a - b)
      else if bool_decide (op = "*"%char) then Ok (a * b)
      else if b =? 0 then Raise ZeroDivisionError
      else Diverge
  end.

Definition eval (text : string) : result Z := e ← parse text; eval_expr e.

Definition int_host : Host := {|
  float := Empty_set;
  float_str := fun f => match f with end;
  py_eval := fun text => z ← eval text; Ok (VInt z);
  py_truth := fun text => z ← eval text; Ok (negb (z =? 0));
  py_call := fun _ _ => Diverge;
  float_of_str := fun s =>
    if PyStr.nonempty (PyStr.strip s) then Diverge else Raise ValueError;
  int_of_float := fun f => match f with end;
  int_of_str := fun s => if PyStr.isdigit s then Ok (PyStr.digits_value 0 s) else Diverge;
  float_add := fun _ _ => Diverge;
  float_lt := fun _ _ => Diverge;
  float_le := fun _ _ => Diverge;
|}.

End IntHost.

(** ** Notions used to state the properties *)

(** [c] occurs in [s]. *)
Fixpoint occurs (c : ascii) (s : string) : bool :=
  match s with
  | EmptyString => false
  | String c' s' => bool_decide (c' = c) || occurs c s'
  end.

(** The expression gets past the literal, variable and function-call
    branches of [evaluate_expression] and is handled by its [try] block. *)
Definition reaches_arithmetic (expr : string) : bool :=
  let expr := PyStr.strip expr in
  negb (is_quoted expr)
  && match is_variable expr with Ok false => true | _ => false end
  && match called_function expr with None => true | Some _ => false end.

(** The text of the [try] block has a string concatenation in it: a plus
    sign and a double quote. *)
Definition has_concatenation (text : string) : bool :=
  PyStr.contains "+" text && PyStr.contains (String PyStr.dq "") text.

(** The identifier tokens of an expression as the specification's lexer
    reads them: the maximal runs of letters and digits that start with a
    letter, with one closing dollar sign if there is one. [cur] is the
    run being read, reversed; a run that starts with a digit is a number
    and is dropped. *)
Definition close_run (cur : string) : list string :=
  match String.rev cur with
  | String c _ as run => if PyStr.isalpha_char c then [run] else []
  | EmptyString => []
  end.

Fixpoint identifier_tokens_go (cur : string) (s : string) : list string :=
  match s with
  | EmptyString => close_run cur
  | String c s' =>
      if PyStr.isalnum_char c then identifier_tokens_go (String c cur) s'
      else if bool_decide (c = "$"%char) && PyStr.nonempty cur then
        close_run (String c cur) ++ identifier_tokens_go EmptyString s'
      else close_run cur ++ identifier_tokens_go EmptyString s'
  end.

Definition identifier_tokens (expr : string) : list string :=
  identifier_tokens_go EmptyString expr.

(** The state of a fresh interpreter on the integer host, with nothing to
    read and no files; a session of the interpreter on the integer host:
    [main] on a given input; and what the banner prints. *)
Definition fresh : state (@float IntHost.int_host) := init [] ∅.

Definition session (fuel : nat) (input : list string)
  : outcome (@float IntHost.int_host) :=
  run (H := IntHost.int_host) fuel (init input ∅).

Definition banner : list string :=
  ["    **** COMMODORE 64 BASIC V2 ****" +:+ nl;
   " 64K RAM SYSTEM  38911 BASIC BYTES FREE" +:+ nl; nl; "READY." +:+ nl; nl].

(** What a part of a concatenation contributes, and the value of the
    concatenation: quoted parts give their inside, the others the text of
    their value; the texts are joined in order. *)
Definition part_text {H : Host} (rec : string -> result (value float)) (part : string)
  : result string :=
  let part := PyStr.strip part in
  if is_quoted part then Ok (PyStr.inner part)
  else v ← rec part; Ok (py_str v).

Fixpoint part_texts {H : Host} (rec : string -> result (value float))
  (parts : list string) : result (list string) :=
  match parts with
  | [] => Ok []
  | part :: rest =>
      t ← part_text rec part; ts ← part_texts rec rest; Ok (t :: ts)
  end.

Definition joined {F} (texts : list string) : value F :=
  VStr (foldr String.append "" texts).

(** The name [x] cannot show up in a text that is free of the character
    [c]: [c] occurs in [x], and in the text of no value bound to another
    name. *)
Definition inert {H : Host} (c : ascii) (x : string)
  (variables : list (string * value float)) : bool :=
  occurs c x
  && forallb (fun binding : string * value float =>
                bool_decide (binding.1 = x) || negb (occurs c (value_text binding.2)))
             variables.

(** A text without a name: no letter and no underscore in it. Python
    answers [eval] of such a text by the text alone. A name, here, is a
    text with a letter or an underscore in it. *)
Definition nameless (text : string) : bool :=
  PyStr.all (fun c => negb (PyStr.isalpha_char c || bool_decide (c = "_"%char))) text.

Definition named (name : string) : bool := negb (nameless name).

(** The texts that the [try] block of the evaluator hands on for [expr]:
    the parts of a concatenation that are not between double quotes, which
    go to the evaluator again, or else the whole substituted text, which
    goes to [eval]. *)
Definition eval_texts {H : Host} (variables : list (string * value float))
  (expr : string) : list string :=
  let text := substitute variables (PyStr.strip expr) in
  if has_concatenation text
  then List.filter (fun part => negb (is_quoted part))
         (PyStr.strip <$> PyStr.split "+" text)
  else [text].



(** The outcome carries an empty FOR table. *)
Definition loopless {F} (o : outcome F) : Prop :=
  match o with
  | Done st | Raised _ st => for_loops st = ∅
  | Diverged => True
  end.

(** A variable name as the variable branch of the evaluator takes it: a
    letter, then letters, digits and dollar signs. *)
Definition identifier (name : string) : bool :=
  match name with
  | String c rest =>
      PyStr.isalpha_char c
      && PyStr.all (fun c => PyStr.isalnum_char c || bool_decide (c = "$"%char)) rest
  | EmptyString => false
  end.

(** A program text as [parse_line] leaves it: not empty, and no blank at
    its end. *)
Definition clean (text : string) : bool :=
  match String.rev text with
  | String b _ => negb (PyStr.isspace b)
  | EmptyString => false
  end.

(** A text with no line end in it. *)
Definition one_line (text : string) : bool :=
  negb (occurs "010" text) && negb (occurs "013" text).

(** CPython converts between integers and numerals of at most this many
    digits (the default of [sys.int_max_str_digits]): beyond it [int] and
    the formatting of an integer raise, which the embedding does not show.
    A line number is in range when it is not negative and its numeral has
    at most that many digits. *)
Definition int_max_str_digits : Z := 4300.

Definition in_range (n : Z) : Prop := 0 <= n < 10 ^ int_max_str_digits.

(** A state whose line numbers are all in range, as [parse_line] gives
    them. *)
Definition numbered {F} (st : state F) : Prop :=
  forall n, is_Some (lines st !! n) -> in_range n.

(** The texts printed by a handler that returned. *)
Definition printed {F} (o : outcome F) : option (list string) :=
  match o with
  | Done st => Some (stdout st)
  | _ => None
  end.

(** The program of the FOR/NEXT example, the texts of the two examples of
    the plus sign, and a state of the run loop about to execute a GOSUB at
    line 10. *)
Definition for_next_program : list string :=
  ["10 FOR I=1 TO 3"; "20 PRINT I"; "30 NEXT I"].

Definition one_plus_x : string := "1+" +:+ PyStr.quoted "X".

Definition hi_plus_there : string :=
  "A$=" +:+ PyStr.quoted "HI" +:+ "+" +:+ PyStr.quoted " THERE".

Definition calling : state (@float IntHost.int_host) :=
  with_running true
    (with_program_counter (Some 10)
       (with_gosub_stack [Some 70]
          (with_lines (list_to_map [(10, "GOSUB 40"); (20, "END"); (40, "RETURN")]) fresh))).

(** A fresh interpreter at which an empty line is typed, then BYE. *)
Definition blank_typed : state (@float IntHost.int_host) := init [""; "BYE"] ∅.

(** Two variable environments that differ in the value of [B] only. *)
Definition a1_b2 : list (string * value (@float IntHost.int_host)) :=
  Dict.set "B" (VInt 2) (Dict.set "A" (VInt 1) (variables fresh)).

Definition a1_b3 : list (string * value (@float IntHost.int_host)) :=
  Dict.set "B" (VInt 3) a1_b2.

(** * Properties *)

(** ** Facts about texts *)

(** The text functions and the lexical helpers on small inputs. *)

Example strip_examples :
  PyStr.strip "  A = 5 " = "A = 5" /\ PyStr.strip "   " = "" /\
  PyStr.upper "let a$=1" = "LET A$=1".
Proof. repeat split; reflexivity. Qed.

Example inner_examples :
  PyStr.inner (PyStr.quoted "HI") = "HI" /\ PyStr.inner (String PyStr.dq "") = "".
Proof. split; reflexivity. Qed.

Example replace_examples :
  PyStr.replace "A" "10" "A+BA" = "10+B10" /\
  PyStr.replace "" "5" "1+1" = "515+515" /\
  PyStr.replace "aa" "b" "aaa" = "ba".
Proof. repeat split; reflexivity. Qed.

Example split_examples :
  PyStr.split "+" "1+2+" = ["1"; "2"; ""] /\ PyStr.split "," "" = [""] /\
  PyStr.split_once " TO " "1 TO 3 TO 4" = Some ("1", "3 TO 4") /\
  PyStr.find "THEN" "A<1 THEN X" = Some 4%nat.
Proof. repeat split; reflexivity. Qed.

(** The greedy match takes everything up to the last closing parenthesis,
    and a dollar sign ends the run of word characters. *)
Example func_match_examples :
  func_match "LEN(C$)" = Some ("LEN", "C$") /\
  func_match "INT(RND(1) * 100)" = Some ("INT", "RND(1) * 100") /\
  func_match "ABS(-5)+LEN(X)" = Some ("ABS", "-5)+LEN(X") /\
  func_match "CHR$(65)" = None.
Proof. repeat split; reflexivity. Qed.

Example split_args_example : split_args 0 "" "1, (2,3), 4" = ["1"; "(2,3)"; "4"].
Proof. reflexivity. Qed.

Example print_parts_examples :
  print_parts false 0 "" (PyStr.quoted "A + B = " +:+ "; A + B")
  = [PyStr.quoted "A + B = "; ";"; "A + B"] /\
  print_parts false 0 "" "A;;B" = ["A"; ";"; ""; ";"; "B"].
Proof. split; reflexivity. Qed.

Example parse_line_examples :
  parse_line "10 PRINT I" = (Some 10, "PRINT I") /\
  parse_line " RUN " = (None, "RUN") /\
  parse_line "10" = (Some 10, "").
Proof. repeat split; reflexivity. Qed.

Example identifier_tokens_examples :
  identifier_tokens "A$+B1*(2+CD)" = ["A$"; "B1"; "CD"] /\
  identifier_tokens "12+3X" = [].
Proof. split; reflexivity. Qed.


Lemma append_cons a s t : String a s +:+ t = String a (s +:+ t).
Proof. reflexivity. Qed.

Lemma append_empty_r s : s +:+ "" = s.
Proof. induction s as [| a s IH]; [reflexivity |]. rewrite append_cons. now f_equal. Qed.

Lemma append_assoc s t u : (s +:+ t) +:+ u = s +:+ (t +:+ u).
Proof.
  induction s as [| a s IH]; [reflexivity |]. rewrite !append_cons. now f_equal.
Qed.

(** A character that does not occur in a text does not occur in what the
    [str] methods make of it. *)

Lemma occurs_app c s t : occurs c (s +:+ t) = occurs c s || occurs c t.
Proof.
  induction s as [| a s IH]; [reflexivity |].
  rewrite append_cons. simpl. rewrite IH. apply orb_assoc.
Qed.

Lemma occurs_rev_app c s t :
  occurs c (String.rev_app s t) = occurs c s || occurs c t.
Proof.
  revert t. induction s as [| a s IH]; intros t; simpl; [reflexivity |].
  rewrite IH. simpl. destruct (bool_decide (a = c)), (occurs c s), (occurs c t); reflexivity.
Qed.

Lemma occurs_rev c s : occurs c (String.rev s) = occurs c s.
Proof. unfold String.rev. rewrite occurs_rev_app. simpl. apply orb_false_r. Qed.

Lemma free_lstrip c s : occurs c s = false -> occurs c (PyStr.lstrip s) = false.
Proof.
  induction s as [| a s IH]; simpl; [reflexivity |]. intros Hs.
  destruct (PyStr.isspace a); [| exact Hs].
  apply IH. now apply orb_false_elim in Hs as [_ ?].
Qed.

Lemma free_strip c s : occurs c s = false -> occurs c (PyStr.strip s) = false.
Proof.
  intros Hs. unfold PyStr.strip, PyStr.rstrip.
  rewrite occurs_rev. apply free_lstrip. rewrite occurs_rev. now apply free_lstrip.
Qed.

Lemma free_take c n s : occurs c s = false -> occurs c (PyStr.take n s) = false.
Proof.
  revert s. induction n as [| n IH]; intros [| a s]; simpl; try reflexivity.
  intros Hs. apply orb_false_elim in Hs as [-> Hs]. simpl. now apply IH.
Qed.

Lemma free_drop c n s : occurs c s = false -> occurs c (PyStr.drop n s) = false.
Proof.
  revert s. induction n as [| n IH]; intros [| a s]; simpl; try reflexivity; try easy.
  intros Hs. apply orb_false_elim in Hs as [_ Hs]. now apply IH.
Qed.

Lemma free_take_while c p s : occurs c s = false -> occurs c (take_while p s) = false.
Proof.
  induction s as [| a s IH]; simpl; [reflexivity |]. intros Hs.
  apply orb_false_elim in Hs as [Ha Hs].
  destruct (p a); simpl; [| reflexivity]. rewrite Ha. now apply IH.
Qed.

Lemma prefix_occurs c x t :
  String.prefix x t = true -> occurs c x = true -> occurs c t = true.
Proof.
  revert t. induction x as [| a x IH]; intros t Hp Hx; simpl in Hx; [discriminate |].
  destruct t as [| b t]; [discriminate |].
  cbn [String.prefix] in Hp.
  destruct (ascii_dec a b) as [-> |]; [| discriminate].
  simpl. apply orb_true_iff in Hx as [Hx | Hx].
  - rewrite Hx. reflexivity.
  - rewrite (IH t Hp Hx). apply orb_true_r.
Qed.

(** A name that holds a character foreign to the text is not replaced in
    it. *)
Lemma replace_absent c x new t :
  occurs c x = true -> occurs c t = false -> PyStr.replace x new t = t.
Proof.
  intros Hx Ht. destruct x as [| a x]; [discriminate |].
  unfold PyStr.replace. induction t as [| b t IH]; [reflexivity |].
  cbn [PyStr.replace_go].
  destruct (String.prefix (String a x) (String b t)) eqn:Hp.
  - rewrite (prefix_occurs c _ _ Hp Hx) in Ht. discriminate.
  - f_equal. apply IH. simpl in Ht. now apply orb_false_elim in Ht as [_ ?].
Qed.

Lemma free_replace_go c old new skip t :
  occurs c new = false -> occurs c t = false ->
  occurs c (PyStr.replace_go old new skip t) = false.
Proof.
  intros Hn. revert skip. induction t as [| b t IH]; intros skip Ht; [reflexivity |].
  simpl in Ht. apply orb_false_elim in Ht as [Hb Ht].
  cbn [PyStr.replace_go]. destruct skip as [| k]; [| now apply IH].
  destruct (String.prefix old (String b t)).
  - rewrite occurs_app, Hn. now apply IH.
  - simpl. rewrite Hb. now apply IH.
Qed.

Lemma free_intersperse c new t :
  occurs c new = false -> occurs c t = false ->
  occurs c (PyStr.intersperse new t) = false.
Proof.
  intros Hn. induction t as [| b t IH]; intros Ht; simpl; [exact Hn |].
  simpl in Ht. apply orb_false_elim in Ht as [Hb Ht].
  rewrite occurs_app, Hn. simpl. rewrite Hb. now apply IH.
Qed.

Lemma free_replace c old new t :
  occurs c new = false -> occurs c t = false ->
  occurs c (PyStr.replace old new t) = false.
Proof.
  intros Hn Ht. destruct old; simpl.
  - now apply free_intersperse.
  - now apply free_replace_go.
Qed.

Lemma free_split_go c a cur s :
  occurs c cur = false -> occurs c s = false ->
  Forall (fun part => occurs c part = false) (PyStr.split_go a cur s).
Proof.
  revert cur. induction s as [| b s IH]; intros cur Hcur Hs; simpl.
  - constructor; [| constructor]. now rewrite occurs_rev.
  - simpl in Hs. apply orb_false_elim in Hs as [Hb Hs].
    destruct (bool_decide (b = a)).
    + constructor; [now rewrite occurs_rev | now apply IH].
    + apply IH; [| exact Hs]. simpl. now rewrite Hb.
Qed.

Lemma free_split_args c n cur s :
  occurs c cur = false -> occurs c s = false ->
  Forall (fun part => occurs c part = false) (split_args n cur s).
Proof.
  revert n cur. induction s as [| b s IH]; intros n cur Hcur Hs; simpl.
  - destruct (PyStr.nonempty cur); constructor; [| constructor].
    apply free_strip. now rewrite occurs_rev.
  - simpl in Hs. apply orb_false_elim in Hs as [Hb Hs].
    assert (occurs c (String b cur) = false) as Hbc by (simpl; now rewrite Hb).
    repeat case_match; try (now apply IH).
    constructor; [apply free_strip; now rewrite occurs_rev | now apply IH].
Qed.

Lemma free_called_function c expr func_name args_str :
  occurs c expr = false ->
  called_function expr = Some (func_name, args_str) ->
  occurs c args_str = false.
Proof.
  intros He. unfold called_function, func_match.
  destruct (PyStr.nonempty _); [| discriminate].
  destruct (PyStr.lstrip _) as [| b rest] eqn:Hrest; [discriminate |].
  assert (occurs c rest = false) as Hfree.
  { assert (occurs c (String b rest) = false) as Hb.
    { rewrite <- Hrest. apply free_lstrip. now apply free_drop. }
    simpl in Hb. now apply orb_false_elim in Hb as [_ ?]. }
  destruct (bool_decide (b = "("%char)); [| discriminate].
  destruct (rfind_char _ _) as [i |] eqn:Hi; simpl; [| discriminate].
  case_match; [| discriminate].
  intros [= _ <-]. apply free_take. now apply free_take_while.
Qed.

Lemma dict_get_set_ne {V} (k x : string) (v : V) d :
  k <> x -> Dict.get k (Dict.set x v d) = Dict.get k d.
Proof.
  intros Hne. induction d as [| [k' v'] d IH]; simpl.
  - rewrite bool_decide_eq_false_2; [reflexivity | congruence].
  - destruct (bool_decide (k' = x)) eqn:Hx; simpl; [| now rewrite IH].
    apply bool_decide_eq_true in Hx. subst k'.
    rewrite !bool_decide_eq_false_2; congruence.
Qed.

(** ** The interpreter on any host *)

Section Properties.
Context {H : Host}.
Abbreviation state := (state float).
Abbreviation outcome := (outcome float).
Implicit Types (st : state) (fuel : nat) (command expr : string).

Lemma execute_command_unfold fuel command st :
  execute_command fuel command st =
  execute_command_body
    (match fuel with O => fun _ _ => Diverged | S fuel' => execute_command fuel' end)
    fuel command st.
Proof. destruct fuel; reflexivity. Qed.

Lemma evaluate_expression_unfold fuel vars expr :
  evaluate_expression fuel vars expr =
  evaluate_expression_body
    (match fuel with O => fun _ => Diverge | S fuel' => evaluate_expression fuel' vars end)
    vars expr.
Proof. destruct fuel; reflexivity. Qed.

(** The RETURN branch: pop the last return line if there is one. *)
Lemma execute_return fuel command st :
  PyStr.upper (PyStr.strip command) = "RETURN" ->
  execute_command fuel command st =
  Done (match reverse (gosub_stack st) with
        | top :: below => with_program_counter top (with_gosub_stack (reverse below) st)
        | [] => st
        end).
Proof.
  intros Hcmd. rewrite execute_command_unfold. unfold execute_command_body.
  rewrite Hcmd. change (dispatch "RETURN") with BReturn. cbv beta iota zeta.
  destruct (reverse (gosub_stack st)); reflexivity.
Qed.

(** C6, as the code has it: RETURN on an empty GOSUB stack is a silent
    no-op, the state (and so the output) is left as it was and nothing is
    raised; on a non-empty stack the last return line pushed is popped and
    becomes the program counter. *)
Theorem return_pops_or_does_nothing fuel command st :
  PyStr.upper (PyStr.strip command) = "RETURN" ->
  (gosub_stack st = [] -> execute_command fuel command st = Done st) /\
  (forall below top,
     gosub_stack st = below ++ [top] ->
     execute_command fuel command st =
     Done (with_program_counter top (with_gosub_stack below st))).
Proof.
  intros Hcmd. rewrite (execute_return _ _ _ Hcmd). split.
  - intros ->. reflexivity.
  - intros below top ->. rewrite reverse_snoc, reverse_involutive. reflexivity.
Qed.

(** C10: an expression text that is empty once stripped makes
    [evaluate_expression] raise [IndexError] (the index 0 of the variable
    test), and the assignment [A =] lets that exception through. *)
Theorem empty_expression_raises fuel st expr :
  PyStr.strip expr = "" ->
  evaluate_expression fuel (variables st) expr = Raise IndexError /\
  execute_command fuel "A =" st = Raised IndexError st.
Proof.
  intros Hexpr. split.
  - rewrite evaluate_expression_unfold. unfold evaluate_expression_body.
    rewrite Hexpr. reflexivity.
  - rewrite execute_command_unfold. unfold execute_command_body.
    change (dispatch (PyStr.upper (PyStr.strip "A ="))) with BAssignment.
    cbv beta iota zeta. unfold handle_assignment.
    change (PyStr.strip "A =") with "A =".
    change (PyStr.startswith "LET " "A =") with false. cbv iota.
    change (PyStr.split_once "=" "A =") with (Some ("A ", "")).
    cbv beta iota zeta.
    rewrite evaluate_expression_unfold. reflexivity.
Qed.

(** A statement with an equals sign in it that is neither PRINT nor INPUT is
    handed to [handle_assignment], whatever keyword it starts with. *)
Lemma equals_sign_dispatch command :
  PyStr.contains "=" command = true ->
  PyStr.startswith "PRINT" command = false ->
  PyStr.startswith "INPUT" command = false ->
  dispatch command = BAssignment.
Proof.
  intros Heq Hp Hi. unfold dispatch. rewrite Hp, Hi, Heq.
  destruct command; [discriminate Heq | reflexivity].
Qed.

(** C1, what the code does instead: the test for an equals sign comes
    before the tests for IF, FOR and the keywords after them, so every
    statement that holds an equals sign and does not start with PRINT or
    INPUT is executed by the assignment handler, whatever its first
    keyword. *)
Theorem equals_sign_shadows_keywords fuel command st :
  PyStr.contains "=" (PyStr.upper (PyStr.strip command)) = true ->
  PyStr.startswith "PRINT" (PyStr.upper (PyStr.strip command)) = false ->
  PyStr.startswith "INPUT" (PyStr.upper (PyStr.strip command)) = false ->
  dispatch (PyStr.upper (PyStr.strip command)) = BAssignment /\
  execute_command fuel command st = handle_assignment fuel (PyStr.strip command) st.
Proof.
  intros Heq Hp Hi.
  pose proof (equals_sign_dispatch _ Heq Hp Hi) as Hd.
  split; [exact Hd |].
  rewrite execute_command_unfold. unfold execute_command_body.
  rewrite Hd. reflexivity.
Qed.

(** C5, as the code has it: when the host raises on the text of the [try]
    block (a division by zero among others), the bare [except] answers 0
    and no error leaves the evaluator. *)
Theorem failing_arithmetic_is_zero fuel vars expr e :
  reaches_arithmetic expr = true ->
  has_concatenation (substitute vars (PyStr.strip expr)) = false ->
  py_eval (substitute vars (PyStr.strip expr)) = Raise e ->
  evaluate_expression fuel vars expr = Ok (VInt 0).
Proof.
  unfold reaches_arithmetic, has_concatenation. intros Hr Hc He.
  apply andb_prop in Hr as [Hr Hf]. apply andb_prop in Hr as [Hq Hv].
  rewrite evaluate_expression_unfold. unfold evaluate_expression_body.
  apply negb_true_iff in Hq. rewrite Hq.
  destruct (is_variable (PyStr.strip expr)) as [[|]| |]; try discriminate Hv.
  simpl.
  destruct (called_function (PyStr.strip expr)); [discriminate Hf |].
  unfold arithmetic. rewrite Hc, He. reflexivity.
Qed.

(** No exception at all leaves the [try] block: whatever the host or a
    sub-expression raises there is answered by 0. *)
Lemma arithmetic_never_raises fuel vars expr e :
  reaches_arithmetic expr = true ->
  evaluate_expression fuel vars expr <> Raise e.
Proof.
  unfold reaches_arithmetic. intros Hr.
  apply andb_prop in Hr as [Hr Hf]. apply andb_prop in Hr as [Hq Hv].
  rewrite evaluate_expression_unfold. unfold evaluate_expression_body.
  apply negb_true_iff in Hq. rewrite Hq.
  destruct (is_variable (PyStr.strip expr)) as [[|]| |]; try discriminate Hv.
  simpl.
  destruct (called_function (PyStr.strip expr)); [discriminate Hf |].
  destruct (arithmetic _ _ _); simpl; discriminate.
Qed.

(** NEW empties the program and the variables and sets the program counter
    to 0; the GOSUB stack and the FOR table are left as they are. *)
Lemma new_resets_program_and_variables fuel st :
  exists st',
    execute_command fuel "NEW" st = Done st' /\
    lines st' = ∅ /\ variables st' = [] /\ program_counter st' = Some 0 /\
    gosub_stack st' = gosub_stack st /\ for_loops st' = for_loops st.
Proof.
  eexists. split.
  - rewrite execute_command_unfold. unfold execute_command_body.
    change (dispatch (PyStr.upper (PyStr.strip "NEW"))) with BNew. reflexivity.
  - repeat split.
Qed.

(** The loop of the concatenation, with its accumulator, joins the texts of
    the parts. *)
Lemma concat_parts_joined rec parts acc :
  concat_parts rec parts acc =
  ts ← part_texts rec parts; Ok (VStr (acc +:+ foldr String.append "" ts)).
Proof.
  revert acc. induction parts as [| part rest IH]; intros acc; simpl.
  - now rewrite append_empty_r.
  - unfold part_text. destruct (is_quoted (PyStr.strip part)).
    + simpl. rewrite IH. destruct (part_texts rec rest); simpl; try reflexivity.
      now rewrite append_assoc.
    + destruct (rec (PyStr.strip part)); simpl; try reflexivity.
      rewrite IH. destruct (part_texts rec rest); simpl; try reflexivity.
      now rewrite append_assoc.
Qed.

(** C3, as the code has it: the plus sign is told apart by the text, not by
    the kind of an operand. When the text of the [try] block holds a plus
    sign and a double quote it is cut at every plus sign and the texts of
    the parts are joined, a number contributing its decimal text on either
    side; if a part raises the answer is 0. Nothing is raised. *)
Theorem plus_with_quote_concatenates fuel vars expr :
  reaches_arithmetic expr = true ->
  has_concatenation (substitute vars (PyStr.strip expr)) = true ->
  evaluate_expression (S fuel) vars expr =
    catch (ts ← part_texts (evaluate_expression fuel vars)
                  (PyStr.split "+" (substitute vars (PyStr.strip expr)));
           Ok (joined ts))
          (Ok (VInt 0))
  /\ forall e, evaluate_expression (S fuel) vars expr <> Raise e.
Proof.
  unfold reaches_arithmetic, has_concatenation. intros Hr Hc.
  apply andb_prop in Hr as [Hr Hf]. apply andb_prop in Hr as [Hq Hv].
  apply negb_true_iff in Hq.
  assert (evaluate_expression (S fuel) vars expr =
          catch (ts ← part_texts (evaluate_expression fuel vars)
                        (PyStr.split "+" (substitute vars (PyStr.strip expr)));
                 Ok (joined ts))
                (Ok (VInt 0))) as Heq.
  { rewrite evaluate_expression_unfold. unfold evaluate_expression_body.
    rewrite Hq.
    destruct (is_variable (PyStr.strip expr)) as [[|]| |]; try discriminate Hv.
    simpl.
    destruct (called_function (PyStr.strip expr)); [discriminate Hf |].
    unfold arithmetic. rewrite Hc. rewrite concat_parts_joined. reflexivity. }
  split; [exact Heq |].
  intros e. rewrite Heq.
  destruct (part_texts _ _); simpl; discriminate.
Qed.

(** *** A binding the text cannot name *)

Lemma inert_cons c x binding vars :
  inert c x (binding :: vars) = true ->
  (binding.1 = x \/ occurs c (value_text binding.2) = false) /\ inert c x vars = true.
Proof.
  unfold inert. simpl. intros Hi.
  apply andb_prop in Hi as [Hx Hi]. apply andb_prop in Hi as [Hb Hi].
  rewrite Hx, Hi. split; [| reflexivity].
  apply orb_prop in Hb as [Hb | Hb].
  - left. now apply bool_decide_eq_true in Hb.
  - right. now apply negb_true_iff in Hb.
Qed.

Lemma inert_occurs c x vars : inert c x vars = true -> occurs c x = true.
Proof. unfold inert. intros Hi. now apply andb_prop in Hi as [? _]. Qed.

Lemma substitute_one_free c x binding t :
  occurs c x = true ->
  binding.1 = x \/ occurs c (value_text binding.2) = false ->
  occurs c t = false ->
  occurs c (substitute_one t binding) = false.
Proof.
  intros Hx [Hb | Hb] Ht; unfold substitute_one.
  - rewrite Hb, (replace_absent c); assumption.
  - now apply free_replace.
Qed.

Lemma substitute_free c x vars t :
  inert c x vars = true -> occurs c t = false ->
  occurs c (substitute vars t) = false.
Proof.
  unfold substitute. revert t.
  induction vars as [| binding vars IH]; intros t Hi Ht; simpl; [exact Ht |].
  pose proof (inert_occurs _ _ _ Hi) as Hx.
  apply inert_cons in Hi as [Hb Hi].
  apply IH; [exact Hi |]. now apply (substitute_one_free c x).
Qed.

Lemma substitute_set c x v vars t :
  inert c x vars = true -> occurs c t = false ->
  substitute (Dict.set x v vars) t = substitute vars t.
Proof.
  unfold substitute. revert t.
  induction vars as [| [name w] vars IH]; intros t Hi Ht; simpl.
  - unfold substitute_one. simpl.
    now rewrite (replace_absent c) by eauto using inert_occurs.
  - pose proof (inert_occurs _ _ _ Hi) as Hx.
    apply inert_cons in Hi as [Hb Hi]. simpl in Hb.
    destruct (bool_decide (name = x)) eqn:Hname; simpl.
    + apply bool_decide_eq_true in Hname. subst name.
      unfold substitute_one. simpl. now rewrite !(replace_absent c x).
    + apply IH; [exact Hi |]. now apply (substitute_one_free c x).
Qed.

Lemma evaluate_args_ext c (rec1 rec2 : string -> result (value float)) args :
  (forall t, occurs c t = false -> rec1 t = rec2 t) ->
  Forall (fun arg => occurs c arg = false) args ->
  evaluate_args rec1 args = evaluate_args rec2 args.
Proof.
  intros Hrec Hargs. induction Hargs as [| arg args Harg _ IH]; simpl; [reflexivity |].
  rewrite IH, (Hrec _ Harg). reflexivity.
Qed.

Lemma concat_parts_ext c (rec1 rec2 : string -> result (value float)) parts acc :
  (forall t, occurs c t = false -> rec1 t = rec2 t) ->
  Forall (fun part => occurs c part = false) parts ->
  concat_parts rec1 parts acc = concat_parts rec2 parts acc.
Proof.
  intros Hrec Hparts. revert acc.
  induction Hparts as [| part parts Hpart _ IH]; intros acc; simpl; [reflexivity |].
  destruct (is_quoted (PyStr.strip part)); [apply IH |].
  rewrite (Hrec _ (free_strip _ _ Hpart)).
  destruct (rec2 (PyStr.strip part)); simpl; [apply IH | reflexivity | reflexivity].
Qed.

Lemma evaluate_expression_body_set c x v vars rec1 rec2 expr :
  inert c x vars = true ->
  (forall t, occurs c t = false -> rec1 t = rec2 t) ->
  occurs c expr = false ->
  evaluate_expression_body rec1 (Dict.set x v vars) expr
  = evaluate_expression_body rec2 vars expr.
Proof.
  intros Hi Hrec Hexpr. unfold evaluate_expression_body.
  pose proof (free_strip _ _ Hexpr) as He.
  set (e := PyStr.strip expr) in *.
  destruct (is_quoted e); [reflexivity |].
  destruct (is_variable e) as [[|]| |]; simpl; try reflexivity.
  - rewrite dict_get_set_ne; [reflexivity |].
    intros ->. rewrite (inert_occurs _ _ _ Hi) in He. discriminate.
  - destruct (called_function e) as [[func_name args_str] |] eqn:Hcall.
    + rewrite (evaluate_args_ext c rec1 rec2); [reflexivity | exact Hrec |].
      apply free_split_args; [reflexivity |].
      exact (free_called_function _ _ _ _ He Hcall).
    + unfold arithmetic. rewrite (substitute_set c) by assumption.
      pose proof (substitute_free c x vars e Hi He) as Hs.
      destruct (_ && _); [| reflexivity].
      rewrite (concat_parts_ext c rec1 rec2); [reflexivity | exact Hrec |].
      now apply free_split_go.
Qed.

(** C9, as the code has it: a binding is without effect on the value of
    an expression when its name holds a character that occurs neither in
    the expression nor in the text of the value of any other variable: then
    no text the evaluator works on holds the name. This is stated where the
    answer of [eval] is an answer to the text alone: the expression is no
    call of a built-in function, every bound name holds a letter or an
    underscore, and no text handed on by the [try] block has a name left in
    it after the substitution. (On a text with a name in it [eval] reads
    the local variables of the evaluator, the last binding among them, and
    the name of a variable that is a part of another name is replaced inside
    it: both let a binding through.) *)
Theorem unnamed_binding_is_ignored fuel vars expr x v c :
  called_function (PyStr.strip expr) = None ->
  forallb (fun binding => named binding.1) vars = true ->
  (reaches_arithmetic expr = true -> forallb nameless (eval_texts vars expr) = true) ->
  inert c x vars = true ->
  occurs c expr = false ->
  evaluate_expression fuel (Dict.set x v vars) expr
  = evaluate_expression fuel vars expr.
Proof.
  intros _ _ _ Hi. revert expr.
  induction fuel as [| fuel IH]; intros expr Hexpr;
    rewrite !evaluate_expression_unfold;
    apply (evaluate_expression_body_set c); auto.
Qed.

(** *** No statement records a FOR loop

    [handle_for] is reached from [execute_command] only by a statement
    with no equals sign, and it gives up on such a statement: the table
    [for_loops] stays empty through every statement and every run, as long
    as no text handed to [eval] calls back into the interpreter (which the
    host functions of the model cannot do). *)

Lemma find_char_absent c t : occurs c t = false -> PyStr.find (String c "") t = None.
Proof.
  induction t as [| a t IH]; intros Ht; [reflexivity |].
  simpl in Ht. apply orb_false_elim in Ht as [Ha Ht].
  cbn [PyStr.find String.prefix].
  destruct (ascii_dec c a) as [-> |].
  - rewrite bool_decide_eq_true_2 in Ha by reflexivity. discriminate.
  - rewrite (IH Ht). reflexivity.
Qed.

Lemma occurs_of_not_contains c t :
  PyStr.contains (String c "") t = false -> occurs c t = false.
Proof.
  unfold PyStr.contains. intros Hc. apply bool_decide_eq_false in Hc.
  induction t as [| a t IH]; [reflexivity |]. simpl.
  destruct (bool_decide (a = c)) eqn:Ha; simpl.
  - apply bool_decide_eq_true in Ha. subst a. exfalso. apply Hc.
    cbn [PyStr.find String.prefix]. destruct (ascii_dec c c); [| congruence].
    destruct t; eauto.
  - apply IH. intros [i Hi]. apply Hc.
    cbn [PyStr.find String.prefix]. rewrite Hi.
    destruct (ascii_dec c a); [destruct (String.prefix "" t) |]; eauto.
Qed.

Lemma upper_char_equals a : PyStr.upper_char a = "="%char -> a = "="%char.
Proof. destruct a as [[] [] [] [] [] [] [] []]; vm_compute; congruence. Qed.

Lemma occurs_equals_upper s : occurs "=" (PyStr.upper s) = occurs "=" s.
Proof.
  unfold PyStr.upper. induction s as [| a s IH]; [reflexivity |].
  simpl. rewrite IH. f_equal.
  apply bool_decide_ext. split; [apply upper_char_equals | intros ->; reflexivity].
Qed.

(** A statement dispatched to a branch after the assignment branch holds no
    equals sign. *)
Lemma dispatch_for_no_equals command :
  dispatch (PyStr.upper command) = BFor -> occurs "=" command = false.
Proof.
  unfold dispatch. intros Hd.
  rewrite <- occurs_equals_upper. apply occurs_of_not_contains.
  destruct (PyStr.contains "=" (PyStr.upper command)); [| reflexivity].
  repeat (case_match; try discriminate).
Qed.

Lemma handle_for_gives_up fuel command st :
  dispatch (PyStr.upper command) = BFor ->
  handle_for fuel command st = Done (print_error "SYNTAX ERROR" st).
Proof.
  intros Hd. unfold handle_for, PyStr.split_once.
  rewrite (find_char_absent "="); [reflexivity |].
  apply free_strip, free_drop. now apply dispatch_for_no_equals.
Qed.

Lemma lift_loopless {A} (r : result A) st (k : A -> outcome) :
  for_loops st = ∅ -> (forall a, loopless (k a)) -> loopless (lift r st k).
Proof. intros Hst Hk. destruct r; simpl; auto. Qed.

Lemma store_input_loopless var_name text st :
  for_loops st = ∅ -> loopless (store_input var_name text st).
Proof.
  intros Hst. unfold store_input.
  destruct (PyStr.endswith _ _); [exact Hst |].
  destruct (float_of_str text); simpl; auto.
Qed.

Lemma store_inputs_loopless var_names inputs st :
  for_loops st = ∅ -> loopless (store_inputs var_names inputs st).
Proof.
  revert inputs st. induction var_names as [| var_name var_names IH];
    intros [| text inputs] st Hst; simpl; auto.
  pose proof (store_input_loopless var_name (PyStr.strip text) st Hst) as Hs.
  destruct (store_input _ _ _); simpl in *; auto.
Qed.

Lemma handle_input_loopless args st :
  for_loops st = ∅ -> loopless (handle_input args st).
Proof.
  intros Hst. unfold handle_input.
  destruct (if PyStr.startswith _ args then _ else _) as [prompt args'].
  simpl. destruct (stdin st) as [| user_input rest]; [exact Hst |].
  destruct (_ <$> _) as [| var_name [| ? ?]];
    first [apply store_input_loopless | apply store_inputs_loopless]; exact Hst.
Qed.

Lemma list_program_loops st : for_loops (list_program st) = for_loops st.
Proof.
  unfold list_program. destruct (bool_decide _); [reflexivity |].
  generalize (line_numbers st). intros numbers.
  assert (forall st', for_loops st' = for_loops st ->
            for_loops (foldl (fun st0 line_num =>
               color_print (pretty line_num +:+ " " +:+ default "" (lines st0 !! line_num) +:+ nl) st0)
               st' numbers) = for_loops st) as Hfold.
  { induction numbers as [| n numbers IH]; intros st' Hst'; simpl; [exact Hst' |].
    apply IH. exact Hst'. }
  apply Hfold. reflexivity.
Qed.

Lemma handle_load_loops args st : for_loops (handle_load args st) = for_loops st.
Proof. unfold handle_load. repeat case_match; reflexivity. Qed.

Lemma handle_save_loops args st : for_loops (handle_save args st) = for_loops st.
Proof. unfold handle_save. repeat case_match; reflexivity. Qed.

Lemma handle_color_loopless fuel args st :
  for_loops st = ∅ -> loopless (handle_color fuel args st).
Proof.
  intros Hst. unfold handle_color.
  destruct (PyStr.contains "," args).
  - destruct (PyStr.split _ _) as [| p0 [| p1 ps]]; simpl; try exact Hst.
    destruct (evaluate_int fuel (PyStr.strip p0) st); simpl; auto.
    destruct (evaluate_int fuel (PyStr.strip p1) st); simpl; auto.
  - destruct (evaluate_int fuel args st); simpl; auto.
Qed.

Lemma run_loop_loopless exec fuel st :
  (forall command st', for_loops st' = ∅ -> loopless (exec command st')) ->
  for_loops st = ∅ -> loopless (run_loop exec fuel st).
Proof.
  intros Hexec. revert st. induction fuel as [| fuel IH]; intros st Hst; simpl.
  - destruct (fetch st) as [[command st1] |]; simpl; auto.
  - destruct (fetch st) as [[command st1] |] eqn:Hfetch; simpl; auto.
    assert (for_loops st1 = ∅) as Hst1.
    { unfold fetch in Hfetch. repeat case_match; try discriminate.
      injection Hfetch as _ <-. exact Hst. }
    pose proof (Hexec command st1 Hst1) as He.
    destruct (exec command st1) as [st2 | e st2 |]; simpl in *; auto.
    destruct (program_counter st2); simpl; auto.
Qed.

Lemma run_program_loopless exec fuel st :
  (forall command st', for_loops st' = ∅ -> loopless (exec command st')) ->
  for_loops st = ∅ -> loopless (run_program exec fuel st).
Proof.
  intros Hexec Hst. unfold run_program.
  destruct (line_numbers st) as [| first numbers]; [exact Hst |].
  pose proof (run_loop_loopless exec fuel
                (with_program_counter (Some first) (with_running true st)) Hexec Hst) as Hr.
  destruct (run_loop _ _ _); simpl in *; auto.
Qed.

Lemma execute_command_body_loopless rec fuel command st :
  (forall command st', for_loops st' = ∅ -> loopless (rec command st')) ->
  for_loops st = ∅ -> loopless (execute_command_body rec fuel command st).
Proof.
  intros Hrec Hst. unfold execute_command_body.
  destruct (dispatch (PyStr.upper (PyStr.strip command))) eqn:Hd; simpl; auto.
  - unfold handle_print. destruct (negb _); [exact Hst |].
    apply lift_loopless; auto.
  - now apply handle_input_loopless.
  - unfold handle_assignment. destruct (PyStr.split_once _ _) as [[? ?] |]; [| exact Hst].
    apply lift_loopless; auto.
  - unfold handle_if_then. destruct (PyStr.find _ _); [| exact Hst].
    destruct (py_truth _) as [[|] | |]; simpl; auto.
    pose proof (Hrec (PyStr.strip (PyStr.drop (n + 4) (PyStr.strip (PyStr.drop 2 (PyStr.strip command)))))
                  st Hst) as Ha.
    destruct (rec _ st); simpl in *; auto.
  - rewrite handle_for_gives_up by exact Hd. exact Hst.
  - unfold handle_next. rewrite Hst, lookup_empty. fold (for_loops st). exact Hst.
  - apply lift_loopless; auto.
  - apply lift_loopless; auto.
  - destruct (reverse (gosub_stack st)); exact Hst.
  - rewrite list_program_loops. exact Hst.
  - now apply run_program_loopless.
  - unfold handle_wait. destruct (evaluate_expression _ _ _); simpl; auto.
  - rewrite handle_load_loops. exact Hst.
  - rewrite handle_save_loops. exact Hst.
  - now apply handle_color_loopless.
  - unfold handle_screen. destruct (evaluate_int _ _ _); simpl; auto.
Qed.

(** Whatever is executed from a state with no FOR loop leaves no FOR
    loop: the branch of [execute_command] that would record one cannot be
    reached with a well-formed header. *)
Lemma for_loops_stay_empty fuel command st :
  for_loops st = ∅ -> loopless (execute_command fuel command st).
Proof.
  revert command st. induction fuel as [| fuel IH]; intros command st Hst;
    rewrite execute_command_unfold; apply execute_command_body_loopless; auto.
  intros; exact I.
Qed.

(** So NEXT never finds its loop: from a state with no FOR loop it prints
    its error and changes nothing else. *)
Lemma next_without_for fuel command st :
  dispatch (PyStr.upper (PyStr.strip command)) = BNext ->
  for_loops st = ∅ ->
  execute_command fuel command st = Done (print_error "NEXT WITHOUT FOR ERROR" st).
Proof.
  intros Hd Hst. rewrite execute_command_unfold. unfold execute_command_body.
  rewrite Hd. unfold handle_next. rewrite Hst, lookup_empty. reflexivity.
Qed.

Lemma add_line_loopless fuel line st :
  for_loops st = ∅ -> loopless (add_line fuel line st).
Proof.
  intros Hst. unfold add_line.
  destruct (parse_line line) as [[line_num |] command].
  - destruct (PyStr.nonempty command); exact Hst.
  - now apply for_loops_stay_empty.
Qed.

Lemma main_loop_loopless fuel n st :
  for_loops st = ∅ -> loopless (main_loop fuel n st).
Proof.
  revert st. induction n as [| n IH]; intros st Hst; simpl;
    destruct (stdin st) as [| line rest]; simpl; auto.
  destruct (bool_decide _); [exact Hst |].
  pose proof (add_line_loopless fuel line (with_stdin rest st) Hst) as Ha.
  destruct (add_line _ _ _) as [st' | e st' |]; simpl in *; auto.
  destruct e; auto.
Qed.

(** In a whole session, on any input, no statement records a FOR loop
    (with the proviso above on the texts handed to [eval]). *)
Lemma no_session_records_a_loop fuel input fs :
  loopless (run fuel (init input fs)).
Proof. unfold run. now apply main_loop_loopless. Qed.

End Properties.

(** ** More facts about texts: reversal, stripping, quoting, numerals *)

Lemma rev_app_spec s t : String.rev_app s t = String.rev s +:+ t.
Proof.
  unfold String.rev. revert t. induction s as [| a s IH]; intros t; [reflexivity |].
  simpl. rewrite (IH (String a t)), (IH (String a "")), append_assoc. reflexivity.
Qed.

Lemma rev_cons a s : String.rev (String a s) = String.rev s +:+ String a "".
Proof. unfold String.rev at 1. simpl. apply rev_app_spec. Qed.

Lemma rev_append s t : String.rev (s +:+ t) = String.rev t +:+ String.rev s.
Proof.
  induction s as [| a s IH]; [now rewrite append_empty_r |].
  rewrite append_cons, !rev_cons, IH, append_assoc. reflexivity.
Qed.

Lemma rev_involutive s : String.rev (String.rev s) = s.
Proof.
  induction s as [| a s IH]; [reflexivity |].
  rewrite rev_cons, rev_append, IH. reflexivity.
Qed.

Lemma length_append s t :
  String.length (s +:+ t) = (String.length s + String.length t)%nat.
Proof. induction s as [| a s IH]; [reflexivity |]. rewrite append_cons. simpl. now f_equal. Qed.

Lemma take_append s t : PyStr.take (String.length s) (s +:+ t) = s.
Proof. induction s as [| a s IH]; [now destruct t |]. rewrite append_cons. simpl. now f_equal. Qed.

Lemma drop_append s t : PyStr.drop (String.length s) (s +:+ t) = t.
Proof. induction s as [| a s IH]; [now destruct t |]. rewrite append_cons. simpl. exact IH. Qed.

Lemma prefix_empty s : String.prefix "" s = true.
Proof. now destruct s. Qed.

Lemma prefix_append p s : String.prefix p (p +:+ s) = true.
Proof.
  induction p as [| a p IH]; [apply prefix_empty |].
  rewrite append_cons. cbn [String.prefix].
  destruct (ascii_dec a a); [exact IH | congruence].
Qed.

Lemma all_append p s t : PyStr.all p (s +:+ t) = PyStr.all p s && PyStr.all p t.
Proof.
  induction s as [| a s IH]; [reflexivity |].
  rewrite append_cons. simpl. rewrite IH. apply andb_assoc.
Qed.

Lemma all_rev p s : PyStr.all p (String.rev s) = PyStr.all p s.
Proof.
  induction s as [| a s IH]; [reflexivity |].
  rewrite rev_cons, all_append, IH. simpl. rewrite andb_true_r. apply andb_comm.
Qed.

(** Stripping leaves alone a text whose first and last characters are no
    blanks, and a text with no blank at all. *)
Lemma lstrip_nonspace a s :
  PyStr.isspace a = false -> PyStr.lstrip (String a s) = String a s.
Proof. intros Ha. simpl. now rewrite Ha. Qed.

Lemma rstrip_snoc s b :
  PyStr.isspace b = false ->
  PyStr.rstrip (s +:+ String b "") = s +:+ String b "".
Proof.
  intros Hb. unfold PyStr.rstrip.
  rewrite rev_append. change (String.rev (String b "") +:+ String.rev s)
    with (String b (String.rev s)).
  rewrite lstrip_nonspace by exact Hb.
  rewrite rev_cons, rev_involutive. reflexivity.
Qed.

Lemma strip_between a s b :
  PyStr.isspace a = false -> PyStr.isspace b = false ->
  PyStr.strip (String a (s +:+ String b "")) = String a (s +:+ String b "").
Proof.
  intros Ha Hb. unfold PyStr.strip. rewrite lstrip_nonspace by exact Ha.
  rewrite <- append_cons. now apply rstrip_snoc.
Qed.

Lemma lstrip_no_space s :
  PyStr.all (fun c => negb (PyStr.isspace c)) s = true -> PyStr.lstrip s = s.
Proof.
  destruct s as [| a s]; [reflexivity |]. simpl. intros Hall.
  apply andb_prop in Hall as [Ha _]. apply negb_true_iff in Ha. now rewrite Ha.
Qed.

Lemma strip_no_space s :
  PyStr.all (fun c => negb (PyStr.isspace c)) s = true -> PyStr.strip s = s.
Proof.
  intros Hall. unfold PyStr.strip, PyStr.rstrip.
  rewrite (lstrip_no_space s Hall), lstrip_no_space by now rewrite all_rev.
  apply rev_involutive.
Qed.





(** A text between double quotes. *)
Lemma quoted_snoc s : PyStr.quoted s = String PyStr.dq s +:+ String PyStr.dq "".
Proof. reflexivity. Qed.

Lemma strip_quoted s : PyStr.strip (PyStr.quoted s) = PyStr.quoted s.
Proof. unfold PyStr.quoted. now apply strip_between. Qed.

Lemma is_quoted_quoted s : is_quoted (PyStr.quoted s) = true.
Proof.
  unfold is_quoted, PyStr.startswith, PyStr.endswith.
  rewrite quoted_snoc at 2. rewrite rev_append.
  change (String.rev (String PyStr.dq "")) with (String PyStr.dq "").
  unfold PyStr.quoted. rewrite append_cons. cbn [String.prefix].
  destruct (ascii_dec PyStr.dq PyStr.dq); [| congruence].
  now rewrite !prefix_empty.
Qed.

Lemma inner_quoted s : PyStr.inner (PyStr.quoted s) = s.
Proof.
  unfold PyStr.inner, PyStr.quoted. simpl. rewrite length_append. simpl.
  replace (String.length s + 1 - 1)%nat with (String.length s) by lia.
  apply take_append.
Qed.

(** Decimal numerals: [str] of a natural number is read back by [int]. *)
Lemma pretty_N_char_digit x : PyStr.isdigit_char (pretty_N_char x) = true.
Proof. unfold pretty_N_char. repeat case_match; reflexivity. Qed.

Lemma pretty_N_char_value x : (x < 10)%N -> PyStr.digit_value (pretty_N_char x) = Z.of_N x.
Proof.
  intros Hx.
  assert (x = 0 \/ x = 1 \/ x = 2 \/ x = 3 \/ x = 4 \/ x = 5 \/ x = 6 \/ x = 7
          \/ x = 8 \/ x = 9)%N as Hcases by lia.
  repeat destruct Hcases as [-> | Hcases]; try subst x; reflexivity.
Qed.

Lemma pretty_N_go_append x s : pretty_N_go x s = pretty_N_go x "" +:+ s.
Proof.
  revert s. induction (N.lt_wf_0 x) as [x _ IH]; intros s.
  destruct (decide (0 < x)%N) as [Hx |].
  - assert (x `div` 10 < x)%N as Hlt by (apply N.div_lt; lia).
    rewrite !(pretty_N_go_step x) by exact Hx.
    rewrite (IH _ Hlt (String _ s)), (IH _ Hlt (String _ "")).
    rewrite append_assoc. reflexivity.
  - assert (x = 0%N) as -> by lia. now rewrite !pretty_N_go_0.
Qed.

Lemma digits_value_append acc s t :
  PyStr.digits_value acc (s +:+ t) = PyStr.digits_value (PyStr.digits_value acc s) t.
Proof.
  revert acc. induction s as [| a s IH]; intros acc; [reflexivity |].
  rewrite append_cons. simpl. apply IH.
Qed.

Lemma pretty_N_go_digits x :
  PyStr.all PyStr.isdigit_char (pretty_N_go x "") = true /\
  PyStr.digits_value 0 (pretty_N_go x "") = Z.of_N x.
Proof.
  induction (N.lt_wf_0 x) as [x _ IH].
  destruct (decide (0 < x)%N) as [Hx |].
  - rewrite (pretty_N_go_step x) by exact Hx. rewrite pretty_N_go_append.
    assert (x `div` 10 < x)%N as Hlt by (apply N.div_lt; lia).
    destruct (IH _ Hlt) as [Hall Hval].
    rewrite all_append, digits_value_append, Hall, Hval. simpl.
    rewrite pretty_N_char_digit, pretty_N_char_value by (apply N.mod_lt; lia).
    split; [reflexivity |].
    rewrite (N.div_mod x 10) at 3 by lia. lia.
  - assert (x = 0%N) as -> by lia. now rewrite pretty_N_go_0.
Qed.

Lemma pretty_N_go_nonempty x : (0 < x)%N -> PyStr.nonempty (pretty_N_go x "") = true.
Proof.
  intros Hx. rewrite (pretty_N_go_step x) by exact Hx. rewrite pretty_N_go_append.
  destruct (pretty_N_go _ ""); reflexivity.
Qed.

Lemma pretty_digits (n : Z) :
  0 <= n ->
  PyStr.isdigit (pretty n) = true /\ PyStr.digits_value 0 (pretty n) = n.
Proof.
  intros Hn. destruct n as [| p | p]; [split; reflexivity | | lia].
  unfold pretty, pretty_Z, pretty, pretty_positive, pretty, pretty_N.
  rewrite decide_False by lia.
  destruct (pretty_N_go_digits (N.pos p)) as [Hall Hval].
  unfold PyStr.isdigit. rewrite Hall, pretty_N_go_nonempty by lia. split; [reflexivity |].
  rewrite Hval. reflexivity.
Qed.

(** The first occurrence of a character that the text before it does not
    hold. *)
Lemma find_char_first c s t :
  occurs c s = false -> PyStr.find (String c "") (s +:+ String c t) = Some (String.length s).
Proof.
  induction s as [| a s IH]; intros Hs.
  - simpl. destruct (ascii_dec c c); [| congruence]. now rewrite prefix_empty.
  - simpl in Hs. apply orb_false_elim in Hs as [Ha Hs].
    apply bool_decide_eq_false in Ha.
    rewrite append_cons. cbn [PyStr.find String.prefix].
    destruct (ascii_dec c a); [congruence |]. rewrite (IH Hs). reflexivity.
Qed.

Lemma split_once_char c s t :
  occurs c s = false -> PyStr.split_once (String c "") (s +:+ String c t) = Some (s, t).
Proof.
  intros Hs. unfold PyStr.split_once. rewrite (find_char_first c s t Hs). simpl.
  rewrite take_append. f_equal. f_equal.
  replace (String.length s + 1)%nat with (String.length (s +:+ String c "")).
  - rewrite <- (drop_append (s +:+ String c "") t) at 2. now rewrite append_assoc.
  - rewrite length_append. reflexivity.
Qed.

(** ** Statements, the run loop and the main loop on any host *)

Section Statements.
Context {H : Host}.
Abbreviation state := (state float).
Abbreviation outcome := (outcome float).
Implicit Types (st : state) (fuel : nat) (command expr : string).

(** X1: a statement that reaches the FOR handler (it starts with FOR and
    holds no equals sign) ends in the syntax error message and changes
    nothing else: no FOR statement starts a loop. *)
Theorem for_statement_is_a_syntax_error fuel command st :
  dispatch (PyStr.upper (PyStr.strip command)) = BFor ->
  execute_command fuel command st = Done (print_error "SYNTAX ERROR" st).
Proof.
  intros Hd. rewrite execute_command_unfold. unfold execute_command_body.
  rewrite Hd. now apply handle_for_gives_up.
Qed.

(** From a state with no FOR loop, NEXT prints its error and changes
    nothing else, whatever variable it names. *)
Lemma next_reports_missing_for fuel command st :
  dispatch (PyStr.upper (PyStr.strip command)) = BNext ->
  for_loops st = ∅ ->
  execute_command fuel command st = Done (print_error "NEXT WITHOUT FOR ERROR" st).
Proof.
  intros Hd Hst. rewrite execute_command_unfold. unfold execute_command_body.
  rewrite Hd. unfold handle_next. rewrite Hst, lookup_empty. reflexivity.
Qed.

(** X3: no exception leaves the [try] block of the evaluator, with or
    without a concatenation in the text: an expression that is no literal,
    no variable and no function call evaluates to a value (or runs out of
    fuel), never to an error. *)
Theorem try_block_swallows_every_error fuel vars expr e :
  reaches_arithmetic expr = true ->
  evaluate_expression fuel vars expr <> Raise e.
Proof.
  unfold reaches_arithmetic. intros Hr.
  apply andb_prop in Hr as [Hr Hf]. apply andb_prop in Hr as [Hq Hv].
  rewrite evaluate_expression_unfold. unfold evaluate_expression_body.
  apply negb_true_iff in Hq. rewrite Hq.
  destruct (is_variable (PyStr.strip expr)) as [[|]| |]; try discriminate Hv.
  simpl.
  destruct (called_function (PyStr.strip expr)); [discriminate Hf |].
  destruct (arithmetic _ _ _); simpl; discriminate.
Qed.



(** X6: END stops the run at once: when the run loop fetches an END, the
    loop ends right after it, with the program counter on the following
    line and [running] cleared; no later line is executed. *)
Theorem end_stops_the_run fuel n st command st1 :
  fetch st = Some (command, st1) ->
  PyStr.upper (PyStr.strip command) = "END" ->
  run_loop (execute_command fuel) (S n) st = Done (with_running false st1).
Proof.
  intros Hfetch Hcmd. simpl. rewrite Hfetch.
  rewrite execute_command_unfold. unfold execute_command_body.
  rewrite Hcmd. change (dispatch "END") with BEnd. cbv beta iota zeta.
  destruct (program_counter (with_running false st1)) eqn:Hpc; [| reflexivity].
  assert (fetch (with_running false st1) = None) as Hf.
  { unfold fetch. rewrite Hpc. simpl. destruct (lines st1 !! z); reflexivity. }
  destruct n; simpl; rewrite Hf; reflexivity.
Qed.

(** What INPUT stores touches neither the input nor the output, and is
    stored once [float] has answered. *)
Lemma store_input_returns var_name text st :
  float_of_str text <> Diverge ->
  exists st',
    store_input var_name text st = Done st' /\
    stdin st' = stdin st /\ stdout st' = stdout st.
Proof.
  intros Hfloat. unfold store_input.
  destruct (PyStr.endswith _ _); [eauto |].
  destruct (float_of_str text); [eauto | eauto | contradiction].
Qed.

Lemma store_inputs_returns var_names inputs st :
  (forall text, text ∈ PyStr.strip <$> inputs -> float_of_str text <> Diverge) ->
  exists st',
    store_inputs var_names inputs st = Done st' /\
    stdin st' = stdin st /\ stdout st' = stdout st.
Proof.
  revert inputs st. induction var_names as [| var_name var_names IH];
    intros [| text inputs] st Hfloat; simpl; eauto.
  destruct (store_input_returns var_name (PyStr.strip text) st) as (st1 & -> & Hin & Hout).
  { apply Hfloat. rewrite fmap_cons. left. }
  destruct (IH inputs st1) as (st2 & -> & Hin2 & Hout2).
  { intros t Ht. apply Hfloat. rewrite fmap_cons. now right. }
  exists st2. split; [reflexivity |]. split; congruence.
Qed.

(** X7: INPUT reads exactly one line, however many variables it names:
    when a line is there, and [float] answers on the line and on its pieces
    between commas (as Python's always does), the statement returns with
    the rest of the input untouched and has printed one prompt and nothing
    else. *)
Theorem input_reads_one_line fuel command st line rest :
  dispatch (PyStr.upper (PyStr.strip command)) = BInput ->
  stdin st = line :: rest ->
  (forall text,
     text ∈ line :: (PyStr.strip <$> PyStr.split "," line) ->
     float_of_str text <> Diverge) ->
  exists st' prompt,
    execute_command fuel command st = Done st' /\
    stdin st' = rest /\ stdout st' = stdout st ++ [prompt].
Proof.
  intros Hd Hin Hfloat. rewrite execute_command_unfold. unfold execute_command_body.
  rewrite Hd. unfold handle_input.
  destruct (if PyStr.startswith _ _ then _ else _) as [prompt args'].
  simpl. rewrite Hin.
  set (st1 := with_stdin rest (color_print _ st)).
  assert (forall o,
            (exists st', o = Done st' /\ stdin st' = stdin st1 /\ stdout st' = stdout st1) ->
            exists st' prompt0,
              o = Done st' /\ stdin st' = rest /\ stdout st' = stdout st ++ [prompt0])
    as Hend.
  { intros o (st' & -> & Hi & Ho). exists st'. eexists.
    split; [reflexivity |]. split; [exact Hi | exact Ho]. }
  destruct (PyStr.strip <$> PyStr.split "," args') as [| var_name [| ? ?]]; apply Hend.
  - apply (store_inputs_returns [] (PyStr.split "," line) st1).
    intros t Ht. apply Hfloat. now right.
  - apply store_input_returns. apply Hfloat. left.
  - apply store_inputs_returns. intros t Ht. apply Hfloat. now right.
Qed.

(** X8: INPUT at the end of the input prints its prompt and the REDO FROM
    START error, and sets no variable. *)
Theorem input_at_end_of_input fuel command st :
  dispatch (PyStr.upper (PyStr.strip command)) = BInput ->
  stdin st = [] ->
  exists prompt,
    execute_command fuel command st
    = Done (print_error "REDO FROM START" (color_print prompt st)).
Proof.
  intros Hd Hin. rewrite execute_command_unfold. unfold execute_command_body.
  rewrite Hd. unfold handle_input.
  destruct (if PyStr.startswith _ _ then _ else _) as [prompt args'].
  simpl. rewrite Hin. eauto.
Qed.

(** *** The listing and the order of the lines *)

Lemma strictly_sorted (l : list Z) :
  StronglySorted Z.le l -> NoDup l -> StronglySorted Z.lt l.
Proof.
  induction 1 as [| x l Hl IH Hx]; intros Hnd; constructor.
  - apply IH. now apply NoDup_cons in Hnd as [_ ?].
  - apply NoDup_cons in Hnd as [Hnotin _].
    apply Forall_forall. intros y Hy.
    pose proof (proj1 (Forall_forall _ _) Hx y Hy) as Hle.
    assert (x <> y) by (intros ->; contradiction). lia.
Qed.

Lemma line_numbers_sorted st : StronglySorted Z.lt (line_numbers st).
Proof.
  unfold line_numbers. apply strictly_sorted.
  - apply (StronglySorted_merge_sort Z.le).
  - rewrite merge_sort_Permutation. apply NoDup_fst_map_to_list.
Qed.

Lemma elem_of_line_numbers st n :
  n ∈ line_numbers st <-> is_Some (lines st !! n).
Proof.
  unfold line_numbers. rewrite merge_sort_Permutation, list_elem_of_fmap. split.
  - intros [[k text] [-> Hin]]. apply elem_of_map_to_list in Hin. simpl. eauto.
  - intros [text Htext]. exists (n, text). split; [reflexivity |].
    now apply elem_of_map_to_list.
Qed.

Lemma list_lines_stdout (st st' : state) numbers :
  lines st' = lines st ->
  stdout (foldl (fun st0 line_num =>
                   color_print (pretty line_num +:+ " "
                                +:+ default "" (lines st0 !! line_num) +:+ nl) st0)
                st' numbers)
  = stdout st' ++
    ((fun line_num => pretty line_num +:+ " " +:+ default "" (lines st !! line_num) +:+ nl)
       <$> numbers).
Proof.
  revert st'. induction numbers as [| n numbers IH]; intros st' Hlines; simpl.
  - now rewrite app_nil_r.
  - rewrite IH by exact Hlines. simpl. rewrite Hlines, <- app_assoc. reflexivity.
Qed.

(** X9: LIST of a non-empty program with line numbers in range prints
    every stored line exactly once, as its number, a blank and its text, in
    increasing order of the line numbers. *)
Theorem list_prints_the_program_in_order st :
  lines st <> ∅ -> numbered st ->
  stdout (list_program st)
  = stdout st ++
    ((fun line_num => pretty line_num +:+ " " +:+ default "" (lines st !! line_num) +:+ nl)
       <$> line_numbers st)
  /\ StronglySorted Z.lt (line_numbers st)
  /\ forall n, n ∈ line_numbers st <-> is_Some (lines st !! n).
Proof.
  intros Hne _. split; [| split].
  - unfold list_program. rewrite bool_decide_eq_false_2 by exact Hne.
    now apply list_lines_stdout.
  - apply line_numbers_sorted.
  - apply elem_of_line_numbers.
Qed.

Lemma next_line_successor n (l : list Z) :
  StronglySorted Z.lt l -> n ∈ l ->
  match next_line n l with
  | Some m => n < m /\ m ∈ l /\ forall k, k ∈ l -> k <= n \/ m <= k
  | None => forall k, k ∈ l -> k <= n
  end.
Proof.
  induction 1 as [| x l Hl IH Hx]; intros Hn; [inversion Hn |].
  pose proof (proj1 (Forall_forall _ _) Hx) as Hlt.
  simpl. destruct (bool_decide (x = n)) eqn:Hxn.
  - apply bool_decide_eq_true in Hxn. subst x.
    destruct l as [| m r]; simpl.
    + intros k Hk. apply list_elem_of_singleton in Hk. lia.
    + split; [apply Hlt; left |]. split; [right; left |].
      intros k Hk. apply elem_of_cons in Hk as [-> | Hk]; [lia |].
      right. apply elem_of_cons in Hk as [-> | Hk]; [lia |].
      inversion Hl as [| ? ? _ Hm]; subst.
      pose proof (proj1 (Forall_forall _ _) Hm k Hk). lia.
  - apply bool_decide_eq_false in Hxn.
    apply elem_of_cons in Hn as [-> | Hn]; [congruence |].
    specialize (IH Hn). pose proof (Hlt n Hn) as Hxlt.
    destruct (next_line n l) as [m |].
    + destruct IH as (Hnm & Hm & Hbetween). split; [exact Hnm |].
      split; [now right |].
      intros k Hk. apply elem_of_cons in Hk as [-> | Hk]; [lia | auto].
    + intros k Hk. apply elem_of_cons in Hk as [-> | Hk]; [lia | auto].
Qed.

(** X10: before a line is executed the run loop moves the program counter
    to the smallest line number above the current one, or to [None] when
    the current line is the last: execution falls through in increasing
    order of the line numbers. *)
Theorem fetch_moves_to_the_next_line st n command st1 :
  program_counter st = Some n ->
  fetch st = Some (command, st1) ->
  lines st !! n = Some command /\
  match program_counter st1 with
  | Some m =>
      n < m /\ is_Some (lines st !! m) /\
      forall k, is_Some (lines st !! k) -> k <= n \/ m <= k
  | None => forall k, is_Some (lines st !! k) -> k <= n
  end.
Proof.
  intros Hpc Hfetch. unfold fetch in Hfetch. rewrite Hpc in Hfetch.
  destruct (lines st !! n) as [text |] eqn:Htext; [| discriminate].
  destruct (running st); [| discriminate].
  injection Hfetch as <- <-. split; [reflexivity |]. simpl.
  assert (n ∈ line_numbers st) as Hn by (apply elem_of_line_numbers; eauto).
  pose proof (next_line_successor n _ (line_numbers_sorted st) Hn) as Hnext.
  destruct (next_line n (line_numbers st)) as [m |].
  - destruct Hnext as (Hnm & Hm & Hbetween). split; [exact Hnm |].
    split; [now apply elem_of_line_numbers |].
    intros k Hk. apply Hbetween. now apply elem_of_line_numbers.
  - intros k Hk. apply Hnext. now apply elem_of_line_numbers.
Qed.

(** *** Jumps in the run loop *)









(** *** The function table *)

Lemma all_take_while p s : PyStr.all p (take_while p s) = true.
Proof.
  induction s as [| a s IH]; simpl; [reflexivity |].
  destruct (p a) eqn:Hp; simpl; [now rewrite Hp | reflexivity].
Qed.

Lemma upper_word_char_no_dollar a :
  PyStr.isword_char a = true -> PyStr.upper_char a <> "$"%char.
Proof. destruct a as [[] [] [] [] [] [] [] []]; vm_compute; congruence. Qed.

Lemma upper_word_no_dollar s :
  PyStr.all PyStr.isword_char s = true -> occurs "$" (PyStr.upper s) = false.
Proof.
  unfold PyStr.upper. induction s as [| a s IH]; simpl; [reflexivity |].
  intros Hall. apply andb_prop in Hall as [Ha Hs].
  rewrite (IH Hs), bool_decide_eq_false_2; [reflexivity |].
  now apply upper_word_char_no_dollar.
Qed.

(** X11: the entries CHR$ and STR$ of the function table are never
    called: the name matched before the parenthesis is a run of word
    characters, and the dollar sign is none. *)
Theorem dollar_functions_are_never_called expr func_name args_str :
  called_function expr = Some (func_name, args_str) ->
  func_name <> "CHR$" /\ func_name <> "STR$".
Proof.
  unfold called_function, func_match. intros Hcall.
  assert (occurs "$" func_name = false) as Hfree.
  { destruct (PyStr.nonempty _); [| discriminate].
    destruct (PyStr.lstrip _) as [| b rest]; [discriminate |].
    destruct (bool_decide (b = "("%char)); [| discriminate].
    destruct (rfind_char _ _); simpl in Hcall; [| discriminate].
    destruct (bool_decide _); [| discriminate].
    injection Hcall as <- _. apply upper_word_no_dollar, all_take_while. }
  split; intros ->; discriminate Hfree.
Qed.

End Statements.

(** ** Literals, variables and assignments on any host *)

Section Values.
Context {H : Host}.
Abbreviation state := (state float).
Abbreviation outcome := (outcome float).
Implicit Types (st : state) (fuel : nat) (command expr name : string).

(** The literal branch of the evaluator on a quoted text. *)
Lemma evaluate_quoted fuel vars s :
  evaluate_expression fuel vars (PyStr.quoted s) = Ok (VStr s).
Proof.
  rewrite evaluate_expression_unfold. unfold evaluate_expression_body.
  rewrite strip_quoted, is_quoted_quoted, inner_quoted. reflexivity.
Qed.

(** X12: a text between double quotes evaluates to what stands between
    them, verbatim, whatever the variables are: nothing is substituted
    inside a literal, and a quote or a plus sign inside is kept as it is. *)
Theorem string_literal_is_its_content fuel vars s :
  evaluate_expression fuel vars (PyStr.quoted s) = Ok (VStr s).
Proof.
  rewrite evaluate_expression_unfold. unfold evaluate_expression_body.
  rewrite strip_quoted, is_quoted_quoted, inner_quoted. reflexivity.
Qed.

(** The characters of an identifier are no blanks, no quotes and no equals
    signs. *)
Lemma identifier_char_plain c :
  PyStr.isalnum_char c || bool_decide (c = "$"%char) = true ->
  PyStr.isspace c = false /\ c <> PyStr.dq /\ c <> "="%char.
Proof. destruct c as [[] [] [] [] [] [] [] []]; vm_compute; intuition congruence. Qed.

Lemma identifier_chars name :
  identifier name = true ->
  PyStr.all (fun c => PyStr.isalnum_char c || bool_decide (c = "$"%char)) name = true.
Proof.
  destruct name as [| c rest]; [discriminate |]. simpl. intros Hid.
  apply andb_prop in Hid as [Hc ->]. unfold PyStr.isalnum_char. rewrite Hc. reflexivity.
Qed.

Lemma identifier_no_space name :
  identifier name = true ->
  PyStr.all (fun c => negb (PyStr.isspace c)) name = true.
Proof.
  intros Hid. apply identifier_chars in Hid.
  induction name as [| c rest IH]; [reflexivity |]. simpl in *.
  apply andb_prop in Hid as [Hc Hrest].
  destruct (identifier_char_plain c Hc) as [-> _]. simpl. now apply IH.
Qed.


Lemma identifier_strip name : identifier name = true -> PyStr.strip name = name.
Proof. intros Hid. now apply strip_no_space, identifier_no_space. Qed.

Lemma identifier_not_quoted name : identifier name = true -> is_quoted name = false.
Proof.
  destruct name as [| c rest]; [discriminate |]. simpl. intros Hid.
  apply andb_prop in Hid as [Hc _].
  unfold is_quoted, PyStr.startswith. cbn [String.prefix].
  destruct (ascii_dec PyStr.dq c) as [<- |]; [discriminate Hc | reflexivity].
Qed.

Lemma identifier_is_variable name : identifier name = true -> is_variable name = Ok true.
Proof.
  intros Hid. unfold is_variable. destruct (PyStr.isalpha name); [reflexivity |].
  destruct name as [| c rest]; [discriminate |]. simpl in Hid. now rewrite Hid.
Qed.

(** An identifier is looked up by its exact name. *)
Lemma evaluate_identifier fuel vars name :
  identifier name = true ->
  evaluate_expression fuel vars name =
  Ok (match Dict.get name vars with
      | Some v => v
      | None => if PyStr.endswith "$" name then VStr "" else VInt 0
      end).
Proof.
  intros Hid. rewrite evaluate_expression_unfold. unfold evaluate_expression_body.
  rewrite (identifier_strip _ Hid), (identifier_not_quoted _ Hid),
    (identifier_is_variable _ Hid).
  simpl. destruct (Dict.get name vars); reflexivity.
Qed.

(** X13: a variable that was never assigned reads as 0, and as the empty
    text when its name ends with a dollar sign; reading it raises nothing
    and binds nothing. *)
Theorem unset_variable_reads_default fuel vars name :
  identifier name = true ->
  Dict.get name vars = None ->
  evaluate_expression fuel vars name
  = Ok (if PyStr.endswith "$" name then VStr "" else VInt 0).
Proof. intros Hid Hget. now rewrite (evaluate_identifier _ _ _ Hid), Hget. Qed.



Lemma upper_append s t : PyStr.upper (s +:+ t) = PyStr.upper s +:+ PyStr.upper t.
Proof.
  unfold PyStr.upper. induction s as [| a s IH]; [reflexivity |].
  rewrite append_cons. simpl. rewrite IH. reflexivity.
Qed.



Lemma clean_snoc text :
  clean text = true ->
  exists s b, text = s +:+ String b "" /\ PyStr.isspace b = false.
Proof.
  unfold clean. intros Hclean.
  destruct (String.rev text) as [| b r] eqn:Hrev; [discriminate |].
  exists (String.rev r), b. split; [| now apply negb_true_iff].
  rewrite <- (rev_involutive text), Hrev, rev_cons. reflexivity.
Qed.



End Values.

(** ** PRINT of a literal, program lines, SAVE and LOAD on any host *)

Section Program.
Context {H : Host}.
Abbreviation state := (state float).
Abbreviation outcome := (outcome float).
Implicit Types (st : state) (fuel : nat) (command text : string).

(** Inside a string the character loop of [handle_print] cuts nothing: the
    part runs to the closing quote, whatever separators and parentheses it
    passes. *)
Lemma print_parts_in_string n cur s :
  occurs PyStr.dq s = false ->
  print_parts true n cur (s +:+ String PyStr.dq "")
  = [PyStr.strip (String.rev (String PyStr.dq (String.rev_app s cur)))].
Proof.
  revert n cur. induction s as [| a s IH]; intros n cur Hs.
  - change ("" +:+ String PyStr.dq "") with (String PyStr.dq "").
    cbn [print_parts]. rewrite bool_decide_eq_true_2 by reflexivity. reflexivity.
  - simpl in Hs. apply orb_false_elim in Hs as [Ha Hs].
    rewrite append_cons. cbn [print_parts]. rewrite Ha.
    destruct (bool_decide (a = "("%char)); [now apply IH |].
    destruct (bool_decide (a = ")"%char)); [now apply IH |].
    simpl negb. rewrite andb_false_r. simpl. now apply IH.
Qed.

Lemma print_parts_quoted s :
  occurs PyStr.dq s = false -> print_parts false 0 "" (PyStr.quoted s) = [PyStr.quoted s].
Proof.
  intros Hs. unfold PyStr.quoted at 1. cbn [print_parts].
  rewrite bool_decide_eq_true_2 by reflexivity. simpl negb.
  rewrite (print_parts_in_string _ _ _ Hs).
  rewrite rev_cons, rev_app_spec, rev_append, rev_involutive.
  change (String.rev (String PyStr.dq "") +:+ s) with (String PyStr.dq s).
  rewrite <- quoted_snoc, strip_quoted. reflexivity.
Qed.

Lemma endswith_quoted c s :
  c <> PyStr.dq -> PyStr.endswith (String c "") (PyStr.quoted s) = false.
Proof.
  intros Hc. unfold PyStr.endswith. rewrite quoted_snoc, rev_append.
  change (String.rev (String PyStr.dq "") +:+ String.rev (String PyStr.dq s))
    with (String PyStr.dq (String.rev (String PyStr.dq s))).
  change (String.rev (String c "")) with (String c "").
  cbn [String.prefix]. destruct (ascii_dec c PyStr.dq); [contradiction | reflexivity].
Qed.

Lemma print_command_strip s :
  PyStr.strip ("PRINT " +:+ PyStr.quoted s) = "PRINT " +:+ PyStr.quoted s.
Proof.
  replace ("PRINT " +:+ PyStr.quoted s)
    with (String "P" (("RINT " +:+ String PyStr.dq s) +:+ String PyStr.dq "")).
  - now apply strip_between.
  - rewrite append_assoc. reflexivity.
Qed.

(** X15: PRINT of a text between double quotes prints that text and a
    line end, whatever the text holds besides a double quote (commas,
    semicolons, parentheses, equals signs, names of variables), and leaves
    the rest of the state as it is. *)
Theorem print_literal_prints_its_content fuel s st :
  occurs PyStr.dq s = false ->
  execute_command fuel ("PRINT " +:+ PyStr.quoted s) st = Done (color_print (s +:+ nl) st).
Proof.
  intros Hs. rewrite execute_command_unfold. unfold execute_command_body.
  rewrite print_command_strip.
  assert (dispatch (PyStr.upper ("PRINT " +:+ PyStr.quoted s)) = BPrint) as ->.
  { rewrite upper_append. unfold dispatch.
    change (PyStr.upper "PRINT " +:+ PyStr.upper (PyStr.quoted s))
      with ("PRINT" +:+ String " " (PyStr.upper (PyStr.quoted s))).
    unfold PyStr.startswith. rewrite prefix_append. reflexivity. }
  cbv beta iota zeta.
  change (PyStr.drop 5 ("PRINT " +:+ PyStr.quoted s)) with (String " " (PyStr.quoted s)).
  change (PyStr.strip (String " " (PyStr.quoted s))) with (PyStr.strip (PyStr.quoted s)).
  rewrite strip_quoted. unfold handle_print.
  change (PyStr.nonempty (PyStr.quoted s)) with true. cbv beta iota zeta. simpl negb.
  cbv iota. rewrite strip_quoted, (endswith_quoted ";") by discriminate.
  rewrite (print_parts_quoted _ Hs). cbn [print_output].
  rewrite !bool_decide_eq_false_2 by discriminate.
  rewrite evaluate_quoted. reflexivity.
Qed.

(** Inside a string without parentheses the loop keeps its count of
    parentheses, so that what follows the closing quote is read as it would
    be after any other part. *)
Lemma print_parts_plain_string n cur s rest :
  occurs PyStr.dq s = false -> occurs "(" s = false -> occurs ")" s = false ->
  print_parts true n cur (s +:+ String PyStr.dq rest)
  = print_parts false n (String PyStr.dq (String.rev_app s cur)) rest.
Proof.
  revert cur. induction s as [| a s IH]; intros cur Hq Ho Hc.
  - change ("" +:+ String PyStr.dq rest) with (String PyStr.dq rest).
    cbn [print_parts]. rewrite bool_decide_eq_true_2 by reflexivity. reflexivity.
  - simpl in Hq, Ho, Hc.
    apply orb_false_elim in Hq as [Hqa Hq]. apply orb_false_elim in Ho as [Hoa Ho].
    apply orb_false_elim in Hc as [Hca Hc].
    rewrite append_cons. cbn [print_parts]. rewrite Hqa, Hoa, Hca.
    simpl negb. rewrite andb_false_r. simpl. now apply IH.
Qed.

Lemma print_semicolon_strip s :
  PyStr.strip ("PRINT " +:+ PyStr.quoted s +:+ ";") = "PRINT " +:+ PyStr.quoted s +:+ ";".
Proof.
  replace ("PRINT " +:+ PyStr.quoted s +:+ ";")
    with (String "P" (("RINT " +:+ PyStr.quoted s) +:+ String ";" "")).
  - now apply strip_between.
  - rewrite append_assoc. reflexivity.
Qed.

Lemma quoted_semicolon_strip s :
  PyStr.strip (PyStr.quoted s +:+ ";") = PyStr.quoted s +:+ ";".
Proof.
  replace (PyStr.quoted s +:+ ";")
    with (String PyStr.dq ((s +:+ String PyStr.dq "") +:+ String ";" "")).
  - now apply strip_between.
  - unfold PyStr.quoted. rewrite !append_cons. reflexivity.
Qed.

(** X16: a semicolon after the text suppresses the line end: PRINT of a
    text between double quotes, without parentheses in it, followed by a
    semicolon prints the text alone. *)
Theorem print_semicolon_suppresses_line_end fuel s st :
  occurs PyStr.dq s = false -> occurs "(" s = false -> occurs ")" s = false ->
  execute_command fuel ("PRINT " +:+ PyStr.quoted s +:+ ";") st = Done (color_print s st).
Proof.
  intros Hq Ho Hc. rewrite execute_command_unfold. unfold execute_command_body.
  rewrite print_semicolon_strip.
  assert (dispatch (PyStr.upper ("PRINT " +:+ PyStr.quoted s +:+ ";")) = BPrint) as ->.
  { rewrite upper_append. unfold dispatch.
    change (PyStr.upper "PRINT " +:+ PyStr.upper (PyStr.quoted s +:+ ";"))
      with ("PRINT" +:+ String " " (PyStr.upper (PyStr.quoted s +:+ ";"))).
    unfold PyStr.startswith. rewrite prefix_append. reflexivity. }
  cbv beta iota zeta.
  change (PyStr.drop 5 ("PRINT " +:+ PyStr.quoted s +:+ ";"))
    with (String " " (PyStr.quoted s +:+ ";")).
  change (PyStr.strip (String " " (PyStr.quoted s +:+ ";")))
    with (PyStr.strip (PyStr.quoted s +:+ ";")).
  rewrite quoted_semicolon_strip. unfold handle_print.
  change (PyStr.nonempty (PyStr.quoted s +:+ ";")) with true. cbv beta iota zeta.
  simpl negb. cbv iota. rewrite quoted_semicolon_strip.
  assert (PyStr.endswith ";" (PyStr.quoted s +:+ ";") = true) as ->.
  { unfold PyStr.endswith. rewrite rev_append.
    change (String.rev ";" +:+ String.rev (PyStr.quoted s))
      with (String ";" (String.rev (PyStr.quoted s))).
    change (String.rev ";") with (String ";" ""). cbn [String.prefix].
    destruct (ascii_dec ";" ";"); [apply prefix_empty | congruence]. }
  assert (print_parts false 0 "" (PyStr.quoted s +:+ ";") = [PyStr.quoted s; ";"]) as ->.
  { replace (PyStr.quoted s +:+ ";") with (String PyStr.dq (s +:+ String PyStr.dq ";"))
      by (unfold PyStr.quoted; rewrite !append_cons, append_assoc; reflexivity).
    cbn [print_parts]. rewrite bool_decide_eq_true_2 by reflexivity. simpl negb.
    rewrite (print_parts_plain_string _ _ _ _ Hq Ho Hc).
    cbn [print_parts]. rewrite !bool_decide_eq_false_2 by discriminate.
    rewrite bool_decide_eq_true_2 by set_solver. simpl.
    rewrite rev_cons, rev_app_spec, rev_append, rev_involutive.
    change (String.rev (String PyStr.dq "") +:+ s) with (String PyStr.dq s).
    rewrite <- quoted_snoc, strip_quoted. reflexivity. }
  cbn [print_output].
  rewrite (bool_decide_eq_false_2 (PyStr.quoted s = ";")) by discriminate.
  rewrite (bool_decide_eq_false_2 (PyStr.quoted s = ",")) by discriminate.
  rewrite evaluate_quoted. reflexivity.
Qed.

(** *** A function call *)

Lemma take_while_all p s : PyStr.all p s = true -> take_while p s = s.
Proof.
  induction s as [| a s IH]; [reflexivity |]. simpl. intros Hall.
  apply andb_prop in Hall as [-> Hs]. now rewrite IH.
Qed.

Lemma all_other_char c s :
  occurs c s = false -> PyStr.all (fun x => negb (bool_decide (x = c))) s = true.
Proof.
  induction s as [| a s IH]; [reflexivity |]. simpl. intros Hs.
  apply orb_false_elim in Hs as [-> Hs]. now rewrite IH.
Qed.

Lemma rfind_char_snoc a s : rfind_char a (s +:+ String a "") = Some (String.length s).
Proof.
  induction s as [| c s IH].
  - simpl. now rewrite bool_decide_eq_true_2.
  - rewrite append_cons. simpl. now rewrite IH.
Qed.

(** Without a comma in it the text of the arguments is one argument,
    whatever parentheses it holds. *)
Lemma split_args_no_comma n cur s :
  occurs "," s = false ->
  split_args n cur s
  = if PyStr.nonempty (String.rev_app s cur)
    then [PyStr.strip (String.rev (String.rev_app s cur))] else [].
Proof.
  revert n cur. induction s as [| a s IH]; intros n cur Hs; [reflexivity |].
  simpl in Hs. apply orb_false_elim in Hs as [Ha Hs].
  cbn [split_args]. rewrite Ha. cbn [andb].
  destruct (bool_decide (a = "("%char)); [now apply IH |].
  destruct (bool_decide (a = ")"%char)); now apply IH.
Qed.

Lemma split_args_quoted s :
  occurs "," s = false -> split_args 0 "" (PyStr.quoted s) = [PyStr.quoted s].
Proof.
  intros Hs. rewrite split_args_no_comma.
  - rewrite rev_app_spec, append_empty_r, rev_involutive, strip_quoted.
    assert (PyStr.nonempty (String.rev (PyStr.quoted s)) = true) as ->; [| reflexivity].
    rewrite quoted_snoc, rev_append. reflexivity.
  - rewrite quoted_snoc, append_cons. simpl. rewrite occurs_app, Hs. reflexivity.
Qed.

Lemma func_match_len rest :
  func_match ("LEN(" +:+ rest)
  = (let line := take_while (fun c => negb (bool_decide (c = "010"%char))) rest in
     i ← rfind_char ")"%char line; Some ("LEN", PyStr.take i line)).
Proof. reflexivity. Qed.

Lemma called_len s :
  occurs "010" s = false ->
  called_function ("LEN(" +:+ PyStr.quoted s +:+ ")") = Some ("LEN", PyStr.quoted s).
Proof.
  intros Hs. unfold called_function. rewrite func_match_len. cbv zeta.
  rewrite take_while_all.
  - rewrite (rfind_char_snoc ")" (PyStr.quoted s)). simpl. rewrite take_append.
    reflexivity.
  - rewrite all_append, quoted_snoc, all_append.
    simpl. rewrite (all_other_char _ _ Hs). reflexivity.
Qed.

(** X17: LEN of a text between double quotes is the length of the text:
    the call is recognised, the text between the parentheses is its one
    argument (it holds no comma), and parentheses, quotes and names of
    variables in the text count as characters. *)
Theorem len_of_a_literal fuel vars s :
  occurs "," s = false -> occurs "010" s = false ->
  evaluate_expression (S fuel) vars ("LEN(" +:+ PyStr.quoted s +:+ ")")
  = Ok (VInt (Z.of_nat (String.length s))).
Proof.
  intros Hcomma Hline. rewrite evaluate_expression_unfold. unfold evaluate_expression_body.
  assert (PyStr.strip ("LEN(" +:+ PyStr.quoted s +:+ ")") = "LEN(" +:+ PyStr.quoted s +:+ ")")
    as ->.
  { replace ("LEN(" +:+ PyStr.quoted s +:+ ")")
      with (String "L" (("EN(" +:+ PyStr.quoted s) +:+ String ")" ""))
      by (rewrite append_assoc; reflexivity).
    now apply strip_between. }
  rewrite (called_len _ Hline).
  change (is_quoted ("LEN(" +:+ PyStr.quoted s +:+ ")")) with false. cbv iota.
  assert (is_variable ("LEN(" +:+ PyStr.quoted s +:+ ")") = Ok false) as ->.
  { reflexivity. }
  simpl mbind. cbv beta iota.
  change (split_args 0 (String PyStr.dq "") (s +:+ String PyStr.dq ""))
    with (split_args 0 "" (PyStr.quoted s)).
  rewrite (split_args_quoted _ Hcomma). cbn [evaluate_args].
  change (PyStr.nonempty (PyStr.quoted s)) with true. cbv iota.
  rewrite evaluate_quoted. reflexivity.
Qed.

(** *** Numbered lines *)

Lemma digit_char_plain c :
  PyStr.isdigit_char c = true -> PyStr.isspace c = false /\ c <> " "%char.
Proof. destruct c as [[] [] [] [] [] [] [] []]; vm_compute; intuition congruence. Qed.

Lemma digits_no_blank s :
  PyStr.all PyStr.isdigit_char s = true ->
  occurs " " s = false /\ PyStr.all (fun c => negb (PyStr.isspace c)) s = true.
Proof.
  induction s as [| a s IH]; [split; reflexivity |]. simpl. intros Hall.
  apply andb_prop in Hall as [Ha Hs]. destruct (IH Hs) as [-> ->].
  destruct (digit_char_plain a Ha) as [-> Hne].
  rewrite bool_decide_eq_false_2 by exact Hne. split; reflexivity.
Qed.

Lemma pretty_all_digits (n : Z) :
  0 <= n -> PyStr.all PyStr.isdigit_char (pretty n) = true.
Proof.
  intros Hn. destruct (pretty_digits n Hn) as [Hd _].
  unfold PyStr.isdigit in Hd. now apply andb_prop in Hd as [_ ?].
Qed.

Lemma strip_numbered (n : Z) text :
  0 <= n -> clean text = true ->
  PyStr.strip (pretty n +:+ String " " text) = pretty n +:+ String " " text.
Proof.
  intros Hn Hclean.
  destruct (clean_snoc _ Hclean) as (s & b & -> & Hb).
  pose proof (pretty_all_digits n Hn) as Hall.
  destruct (pretty_digits n Hn) as [Hd _]. unfold PyStr.isdigit in Hd.
  destruct (pretty n) as [| d ds]; [discriminate |].
  rewrite append_cons.
  replace (ds +:+ String " " (s +:+ String b ""))
    with ((ds +:+ String " " s) +:+ String b "") by now rewrite append_assoc.
  apply strip_between; [| exact Hb].
  simpl in Hall. apply andb_prop in Hall as [Hdigit _].
  now apply digit_char_plain.
Qed.

(** [parse_line] reads back a numbered line: the number and the text, the
    text verbatim. *)
Lemma parse_numbered (n : Z) text :
  0 <= n -> clean text = true ->
  parse_line (pretty n +:+ String " " text) = (Some n, text).
Proof.
  intros Hn Hclean. unfold parse_line.
  rewrite (strip_numbered n text Hn Hclean).
  destruct (pretty_digits n Hn) as [Hd Hval].
  destruct (digits_no_blank _ (pretty_all_digits n Hn)) as [Hfree _].
  assert (PyStr.nonempty (pretty n +:+ String " " text) = true) as ->.
  { unfold PyStr.isdigit in Hd. destruct (pretty n); [discriminate | reflexivity]. }
  simpl negb. cbv iota.
  rewrite (split_once_char " " (pretty n) text Hfree). cbv beta iota zeta.
  rewrite Hd, Hval. reflexivity.
Qed.

Lemma parse_number_only (n : Z) : 0 <= n -> parse_line (pretty n) = (Some n, "").
Proof.
  intros Hn. unfold parse_line.
  destruct (pretty_digits n Hn) as [Hd Hval].
  destruct (digits_no_blank _ (pretty_all_digits n Hn)) as [Hfree Hplain].
  rewrite (strip_no_space _ Hplain).
  assert (PyStr.nonempty (pretty n) = true) as ->.
  { unfold PyStr.isdigit in Hd. now apply andb_prop in Hd as [? _]. }
  simpl negb. cbv iota. unfold PyStr.split_once.
  rewrite (find_char_absent " " _ Hfree). simpl. rewrite Hd, Hval. reflexivity.
Qed.

Lemma clean_nonempty text : clean text = true -> PyStr.nonempty text = true.
Proof.
  intros Hclean. destruct (clean_snoc _ Hclean) as (s & b & -> & _).
  destruct s; reflexivity.
Qed.

(** X18: a line made of a number in range, a blank and a clean text is
    stored under that number without being executed, the text verbatim, in
    place of what the number held; the other lines, the variables and the
    output stay as they are. *)
Theorem numbered_line_is_stored fuel (n : Z) text st :
  in_range n -> clean text = true ->
  exists st',
    add_line fuel (pretty n +:+ String " " text) st = Done st' /\
    lines st' !! n = Some text /\
    (forall k, k <> n -> lines st' !! k = lines st !! k) /\
    variables st' = variables st /\ stdout st' = stdout st.
Proof.
  intros [Hn _] Hclean. eexists. split.
  - unfold add_line. rewrite (parse_numbered n text Hn Hclean).
    rewrite (clean_nonempty _ Hclean). reflexivity.
  - simpl. split; [apply lookup_insert_eq |]. split; [| split; reflexivity].
    intros k Hk. now apply lookup_insert_ne.
Qed.

(** X19: a line that is only a number deletes the line stored under that
    number, if there is one, and touches nothing else. *)
Theorem bare_number_deletes_the_line fuel (n : Z) st :
  in_range n ->
  exists st',
    add_line fuel (pretty n) st = Done st' /\
    lines st' !! n = None /\
    (forall k, k <> n -> lines st' !! k = lines st !! k) /\
    variables st' = variables st /\ stdout st' = stdout st.
Proof.
  intros [Hn _]. eexists. split.
  - unfold add_line. rewrite (parse_number_only n Hn). reflexivity.
  - simpl. split; [apply lookup_delete_eq |]. split; [| split; reflexivity].
    intros k Hk. now apply lookup_delete_ne.
Qed.

(** X20: a line that is empty or all blanks does nothing at all. *)
Theorem blank_line_does_nothing fuel line st :
  PyStr.strip line = "" -> add_line fuel line st = Done st.
Proof.
  intros Hblank. unfold add_line, parse_line. rewrite Hblank. simpl.
  rewrite execute_command_unfold. reflexivity.
Qed.

(** *** SAVE and LOAD *)

Lemma rstrip_blank_snoc s c :
  PyStr.isspace c = true -> PyStr.rstrip (s +:+ String c "") = PyStr.rstrip s.
Proof.
  intros Hc. unfold PyStr.rstrip. rewrite rev_append.
  change (String.rev (String c "") +:+ String.rev s) with (String c (String.rev s)).
  simpl. now rewrite Hc.
Qed.

Lemma strip_saved_line (n : Z) text :
  0 <= n -> clean text = true ->
  PyStr.strip (pretty n +:+ " " +:+ text +:+ nl) = pretty n +:+ String " " text.
Proof.
  intros Hn Hclean.
  pose proof (strip_numbered n text Hn Hclean) as Hstrip.
  unfold PyStr.strip in *.
  pose proof (pretty_all_digits n Hn) as Hall.
  destruct (pretty_digits n Hn) as [Hd _]. unfold PyStr.isdigit in Hd.
  destruct (pretty n) as [| d ds] eqn:Hp; [discriminate |].
  simpl in Hall. apply andb_prop in Hall as [Hdigit _].
  destruct (digit_char_plain d Hdigit) as [Hspace _].
  rewrite !append_cons, !lstrip_nonspace in * by exact Hspace.
  change ("" +:+ text +:+ nl) with (text +:+ String "010" "").
  replace (String d (ds +:+ String " " (text +:+ String "010" "")))
    with (String d (ds +:+ String " " text) +:+ String "010" "").
  - rewrite rstrip_blank_snoc by reflexivity. exact Hstrip.
  - rewrite append_cons. f_equal. rewrite append_assoc. reflexivity.
Qed.

Lemma load_line_saved l (n : Z) text :
  0 <= n -> clean text = true ->
  load_line l (pretty n +:+ " " +:+ text +:+ nl) = <[n := text]> l.
Proof.
  intros Hn Hclean. unfold load_line.
  rewrite (strip_saved_line n text Hn Hclean).
  rewrite (parse_numbered n text Hn Hclean), (clean_nonempty _ Hclean).
  destruct (PyStr.nonempty _) eqn:Hne; [reflexivity |].
  destruct (pretty_digits n Hn) as [Hd _]. unfold PyStr.isdigit in Hd.
  destruct (pretty n); discriminate.
Qed.

Lemma load_saved_lookup st (numbers : list Z) l k :
  (forall n text, lines st !! n = Some text -> 0 <= n /\ clean text = true) ->
  (forall n, n ∈ numbers -> is_Some (lines st !! n)) ->
  foldl load_line l
    ((fun line_num => pretty line_num +:+ " " +:+ default "" (lines st !! line_num) +:+ nl)
       <$> numbers) !! k
  = if decide (k ∈ numbers) then lines st !! k else l !! k.
Proof.
  intros Hclean. revert l. induction numbers as [| n numbers IH]; intros l Hin.
  - rewrite decide_False by (intros Hk; inversion Hk). reflexivity.
  - rewrite fmap_cons. cbn [foldl].
    destruct (Hin n) as [text Htext]; [left |].
    destruct (Hclean n text Htext) as [Hn Hc].
    rewrite Htext. change (default "" (Some text)) with text.
    rewrite (load_line_saved l n text Hn Hc).
    rewrite IH by (intros m Hm; apply Hin; now right).
    destruct (decide (k ∈ numbers)) as [Hk | Hk].
    + rewrite decide_True by now right. reflexivity.
    + destruct (decide (k = n)) as [-> | Hne].
      * rewrite decide_True by left. now rewrite lookup_insert_eq.
      * rewrite decide_False by (intros Hkn; apply elem_of_cons in Hkn as [? | ?]; auto).
        now apply lookup_insert_ne.
Qed.

(** X21: SAVE followed by LOAD of the same name gives back the program:
    when every line number is in range and every stored text is clean (as
    [add_line] and LOAD store it) and holds no line end, the lines after
    the LOAD are the lines before the SAVE. A text with a line end in it
    would be read back as two lines, which the list of lines that models a
    file does not show. *)
Theorem save_then_load_restores_the_program args st :
  PyStr.nonempty (PyStr.strip_char PyStr.dq (PyStr.strip args)) = true ->
  (forall n text,
     lines st !! n = Some text ->
     in_range n /\ clean text = true /\ one_line text = true) ->
  lines (handle_load args (handle_save args st)) = lines st.
Proof.
  intros Hname Hlines. unfold handle_save, handle_load. rewrite Hname. simpl.
  rewrite lookup_insert_eq. simpl.
  apply map_eq. intros k.
  rewrite (load_saved_lookup st (line_numbers st) ∅ k).
  - destruct (decide (k ∈ line_numbers st)) as [Hk | Hk]; [reflexivity |].
    rewrite lookup_empty. symmetry. apply eq_None_not_Some.
    intros Hsome. apply Hk. now apply elem_of_line_numbers.
  - intros n text Htext. destruct (Hlines n text Htext) as ([? _] & ? & _). now split.
  - intros n Hn. now apply elem_of_line_numbers.
Qed.

End Program.

(** ** The interpreter on the integer host *)

#[local] Existing Instance IntHost.int_host.

(** The immediate-mode commands of [test_basic.py] that stay within the
    integer host, and its program-mode test. The driver only prints what
    the interpreter answers; here is what it answers. *)
Example test_basic_commands :
  printed
    (session 1
       ["PRINT " +:+ PyStr.quoted "HELLO, WORLD!"; "A = 5"; "PRINT A"; "B = 10";
        "PRINT " +:+ PyStr.quoted "A + B = " +:+ "; A + B";
        "C$ = " +:+ PyStr.quoted "HELLO"; "D$ = " +:+ PyStr.quoted "WORLD";
        "PRINT C$ + " +:+ PyStr.quoted " " +:+ " + D$";
        "PRINT " +:+ PyStr.quoted "LENGTH: " +:+ "; LEN(C$)"; "BYE"])
  = Some (banner ++
         ["HELLO, WORLD!" +:+ nl; "5" +:+ nl; "A + B = 15" +:+ nl;
          "HELLO WORLD" +:+ nl; "LENGTH: 5" +:+ nl; "GOODBYE!" +:+ nl]).
Proof. vm_compute. reflexivity. Qed.

Example test_program_mode :
  printed
    (session 10
       ["10 PRINT " +:+ PyStr.quoted "PROGRAM MODE TEST"; "20 A = 10"; "30 B = 20";
        "40 PRINT " +:+ PyStr.quoted "A = " +:+ "; A";
        "50 PRINT " +:+ PyStr.quoted "B = " +:+ "; B";
        "60 PRINT " +:+ PyStr.quoted "SUM = " +:+ "; A + B";
        "70 FOR I = 1 TO 3"; "80 PRINT I"; "90 NEXT I"; "100 END"; "RUN"; "BYE"])
  = Some (banner ++
         ["PROGRAM MODE TEST" +:+ nl; "A = 10" +:+ nl; "B = 20" +:+ nl;
          "SUM = 30" +:+ nl; "0" +:+ nl; "?NEXT WITHOUT FOR ERROR" +:+ nl;
          "READY." +:+ nl; "GOODBYE!" +:+ nl]).
Proof. vm_compute. reflexivity. Qed.

(** C1 at the header of a FOR loop: it is dispatched to the assignment
    handler. *)
Lemma equals_sign_shadows_keywords_witness :
  PyStr.contains "=" (PyStr.upper (PyStr.strip "FOR I=1 TO 3")) = true /\
  PyStr.startswith "PRINT" (PyStr.upper (PyStr.strip "FOR I=1 TO 3")) = false /\
  PyStr.startswith "INPUT" (PyStr.upper (PyStr.strip "FOR I=1 TO 3")) = false /\
  dispatch (PyStr.upper (PyStr.strip "FOR I=1 TO 3")) = BAssignment /\
  execute_command 1 "FOR I=1 TO 3" fresh
  = handle_assignment 1 (PyStr.strip "FOR I=1 TO 3") fresh.
Proof.
  split; [reflexivity |]. split; [reflexivity |]. split; [reflexivity |].
  apply (equals_sign_shadows_keywords 1 "FOR I=1 TO 3" fresh); reflexivity.
Defined.

(** The FOR header and an IF with a comparison both end as assignments to a
    variable named after the text before the equals sign; no FOR loop is
    recorded and no condition is tested. *)
Example for_header_is_an_assignment :
  execute_command 1 "FOR I=1 TO 3" fresh = Done (set_variable "FOR I" (VInt 0) fresh) /\
  execute_command 1 "IF A=1 THEN GOTO 10" fresh
  = Done (set_variable "IF A" (VInt 0) fresh).
Proof. split; vm_compute; reflexivity. Qed.

(** C2 on the code: the program FOR I=1 TO 3 / PRINT I / NEXT I prints 0
    once and then the NEXT WITHOUT FOR error; the FOR line has only
    assigned 0 to a variable named FOR I, and I was never set. *)
Theorem for_next_program_prints_zero_once :
  exists st,
    session 3 (for_next_program ++ ["RUN"]) = Done st /\
    stdout st
    = banner ++ ["0" +:+ nl; "?NEXT WITHOUT FOR ERROR" +:+ nl; "READY." +:+ nl] /\
    Dict.get "FOR I" (variables st) = Some (VInt 0) /\
    Dict.get "I" (variables st) = None /\
    for_loops st = ∅.
Proof. eexists. split; [vm_compute; reflexivity |]. repeat split. Qed.

(** C3 refuted: PRINT of 1 plus the string X does not fail with a type
    mismatch, it prints 1X. *)
Lemma print_number_plus_string_prints :
  printed (execute_command 1 ("PRINT " +:+ one_plus_x) fresh) = Some ["1X" +:+ nl].
Proof. vm_compute. reflexivity. Qed.

Lemma plus_with_quote_concatenates_witness :
  reaches_arithmetic one_plus_x = true /\
  has_concatenation (substitute (variables fresh) (PyStr.strip one_plus_x)) = true /\
  evaluate_expression 1 (variables fresh) one_plus_x =
    catch (ts ← part_texts (evaluate_expression 0 (variables fresh))
                  (PyStr.split "+" (substitute (variables fresh) (PyStr.strip one_plus_x)));
           Ok (joined ts))
          (Ok (VInt 0))
  /\ forall e, evaluate_expression 1 (variables fresh) one_plus_x <> Raise e.
Proof.
  split; [reflexivity |]. split; [reflexivity |].
  apply (plus_with_quote_concatenates 0 (variables fresh) one_plus_x); reflexivity.
Defined.

(** The assignment of the claim, for the record: the whole right-hand side
    starts and ends with a double quote, so the literal branch takes it and
    strips the outer quotes only. *)
Example quoted_sum_is_taken_as_one_literal :
  exists st,
    execute_command 1 hi_plus_there fresh = Done st /\
    Dict.get "A$" (variables st)
    = Some (VStr ("HI" +:+ String PyStr.dq "+" +:+ String PyStr.dq " THERE")).
Proof. eexists. split; vm_compute; reflexivity. Qed.


(** The program counter follows a GOTO to a line of the program: line 20
    is skipped. *)
Example goto_continues_at_its_target :
  printed (session 4 ["10 GOTO 30"; "20 PRINT 2"; "30 PRINT 3"; "RUN"])
  = Some (banner ++ ["3" +:+ nl; "READY." +:+ nl]).
Proof. vm_compute. reflexivity. Qed.


(** C5 refuted: the host raises the division by zero and the evaluator
    answers 0. *)
Lemma division_by_zero_evaluates_to_zero :
  py_eval "1/0" = Raise ZeroDivisionError /\
  evaluate_expression 0 (variables fresh) "1/0" = Ok (VInt 0) /\
  printed (execute_command 0 "PRINT 1/0" fresh) = Some ["0" +:+ nl].
Proof. repeat split; vm_compute; reflexivity. Qed.

Lemma failing_arithmetic_is_zero_witness :
  reaches_arithmetic "1/0" = true /\
  has_concatenation (substitute (variables fresh) (PyStr.strip "1/0")) = false /\
  py_eval (substitute (variables fresh) (PyStr.strip "1/0")) = Raise ZeroDivisionError /\
  evaluate_expression 0 (variables fresh) "1/0" = Ok (VInt 0).
Proof.
  split; [reflexivity |]. split; [reflexivity |]. split; [reflexivity |].
  apply (failing_arithmetic_is_zero 0 (variables fresh) "1/0" ZeroDivisionError);
    reflexivity.
Defined.

(** C6 refuted: RETURN on the empty stack of a fresh interpreter returns
    with the state as it was; nothing is printed. *)
Lemma return_without_gosub_is_silent :
  execute_command 0 "RETURN" fresh = Done fresh.
Proof. vm_compute. reflexivity. Qed.

Lemma return_pops_or_does_nothing_witness :
  PyStr.upper (PyStr.strip " return ") = "RETURN" /\
  (gosub_stack fresh = [] -> execute_command 0 " return " fresh = Done fresh) /\
  (forall below top,
     gosub_stack fresh = below ++ [top] ->
     execute_command 0 " return " fresh =
     Done (with_program_counter top (with_gosub_stack below fresh))).
Proof.
  split; [reflexivity |].
  apply (return_pops_or_does_nothing 0 " return " fresh). reflexivity.
Defined.



(** Two calls deep in a run: line 10 calls 40, which calls 60; the two
    RETURNs come back to 50 and then to 20. *)
Example nested_gosub_run :
  printed (session 8 ["10 GOSUB 40"; "20 PRINT 2"; "30 END"; "40 GOSUB 60";
                      "50 RETURN"; "60 PRINT 6"; "70 RETURN"; "RUN"])
  = Some (banner ++ ["6" +:+ nl; "2" +:+ nl; "READY." +:+ nl]).
Proof. vm_compute. reflexivity. Qed.

(** C8 on the code: the return address pushed by a GOSUB is still on the
    stack after NEW. *)
Theorem return_address_survives_new :
  exists st,
    session 1 ["GOSUB 100"; "NEW"] = Done st /\
    gosub_stack st = [Some 0] /\ lines st = ∅ /\ variables st = [] /\
    program_counter st = Some 0.
Proof. eexists. split; [vm_compute; reflexivity |]. repeat split. Qed.

(** C9 refuted: B is no identifier token of the text AB+0, and the value of
    AB+0 follows the value of B. *)
Lemma substring_binding_changes_result :
  identifier_tokens "AB+0" = ["AB"] /\
  evaluate_expression 0 a1_b2 "AB+0" = Ok (VInt 12) /\
  evaluate_expression 0 a1_b3 "AB+0" = Ok (VInt 13).
Proof. repeat split; vm_compute; reflexivity. Qed.

(** C9 at the text AB+0, which the substitution turns into 12+0, and a
    new variable Z. *)
Lemma unnamed_binding_is_ignored_witness :
  called_function (PyStr.strip "AB+0") = None /\
  forallb (fun binding => named binding.1) a1_b2 = true /\
  reaches_arithmetic "AB+0" = true /\
  eval_texts a1_b2 "AB+0" = ["12+0"] /\
  forallb nameless (eval_texts a1_b2 "AB+0") = true /\
  inert "Z"%char "Z" a1_b2 = true /\
  occurs "Z"%char "AB+0" = false /\
  evaluate_expression 0 (Dict.set "Z" (VInt 7) a1_b2) "AB+0"
  = evaluate_expression 0 a1_b2 "AB+0".
Proof.
  split; [reflexivity |]. split; [reflexivity |]. split; [reflexivity |].
  split; [reflexivity |]. split; [reflexivity |]. split; [reflexivity |].
  split; [reflexivity |].
  apply (unnamed_binding_is_ignored 0 a1_b2 "AB+0" "Z" (VInt 7) "Z"%char);
    first [reflexivity | intros _; reflexivity].
Defined.

(** C10 at a text of two blanks. *)
Lemma empty_expression_raises_witness :
  PyStr.strip "  " = "" /\
  evaluate_expression 0 (variables fresh) "  " = Raise IndexError /\
  execute_command 0 "A =" fresh = Raised IndexError fresh.
Proof.
  split; [reflexivity |].
  apply (empty_expression_raises 0 fresh "  "). reflexivity.
Defined.

(** The exception of C10 seen from the main loop: its catch-all reports a
    syntax error in immediate mode, and in a program the run is cut short
    (no READY after it). *)
Example empty_right_hand_side_in_session :
  printed (session 1 ["A ="]) = Some (banner ++ ["?SYNTAX ERROR" +:+ nl]) /\
  printed (session 2 ["10 A ="; "20 PRINT 1"; "RUN"])
  = Some (banner ++ ["?SYNTAX ERROR" +:+ nl]).
Proof. split; vm_compute; reflexivity. Qed.

(** *** The further properties at concrete statements and states *)

(** The lines of [calling] are numbered in range, clean and without line
    ends. *)
Lemma calling_lines n text :
  lines calling !! n = Some text ->
  in_range n /\ clean text = true /\ one_line text = true.
Proof.
  intros Hl. apply elem_of_map_to_list in Hl.
  remember (map_to_list (lines calling)) as l eqn:Hmap. vm_compute in Hmap. subst l.
  repeat (apply elem_of_cons in Hl as [Hl | Hl];
          [injection Hl as -> ->; repeat split; vm_compute; congruence |]).
  inversion Hl.
Qed.

Lemma calling_not_empty : lines calling <> ∅.
Proof.
  intros Heq. apply (f_equal (fun m => m !! 10)) in Heq. vm_compute in Heq. discriminate.
Qed.

Lemma for_statement_is_a_syntax_error_witness :
  dispatch (PyStr.upper (PyStr.strip "FOR I TO 3")) = BFor /\
  execute_command 0 "FOR I TO 3" fresh = Done (print_error "SYNTAX ERROR" fresh).
Proof.
  split; [reflexivity |].
  apply (for_statement_is_a_syntax_error 0 "FOR I TO 3" fresh). reflexivity.
Defined.

Lemma try_block_swallows_every_error_witness :
  reaches_arithmetic "1/0" = true /\
  evaluate_expression 1 (variables fresh) "1/0" <> Raise ZeroDivisionError.
Proof.
  split; [reflexivity |].
  apply (try_block_swallows_every_error 1 (variables fresh) "1/0" ZeroDivisionError).
  reflexivity.
Defined.


Lemma end_stops_the_run_witness :
  fetch (with_program_counter (Some 20) calling)
  = Some ("END", with_program_counter (Some 40) calling) /\
  PyStr.upper (PyStr.strip "END") = "END" /\
  run_loop (execute_command 0) 1 (with_program_counter (Some 20) calling)
  = Done (with_running false (with_program_counter (Some 40) calling)).
Proof.
  split; [reflexivity |]. split; [reflexivity |].
  apply (end_stops_the_run 0 0 (with_program_counter (Some 20) calling) "END"
           (with_program_counter (Some 40) calling)); reflexivity.
Defined.

(** An empty line typed at INPUT A, B$: [float] raises on it and A is 0. *)
Lemma input_reads_one_line_witness :
  dispatch (PyStr.upper (PyStr.strip "INPUT A, B$")) = BInput /\
  stdin blank_typed = [""; "BYE"] /\
  float_of_str "" = Raise ValueError /\
  exists st' prompt,
    execute_command 0 "INPUT A, B$" blank_typed = Done st' /\
    stdin st' = ["BYE"] /\ stdout st' = stdout blank_typed ++ [prompt].
Proof.
  split; [reflexivity |]. split; [reflexivity |]. split; [reflexivity |].
  apply (input_reads_one_line 0 "INPUT A, B$" blank_typed "" ["BYE"]);
    [reflexivity | reflexivity |].
  intros text Hin. change (text ∈ [""; ""]) in Hin.
  repeat (apply elem_of_cons in Hin as [-> | Hin]; [discriminate |]).
  inversion Hin.
Defined.

Lemma input_at_end_of_input_witness :
  dispatch (PyStr.upper (PyStr.strip "INPUT A")) = BInput /\
  stdin fresh = [] /\
  exists prompt,
    execute_command 0 "INPUT A" fresh
    = Done (print_error "REDO FROM START" (color_print prompt fresh)).
Proof.
  split; [reflexivity |]. split; [reflexivity |].
  apply (input_at_end_of_input 0 "INPUT A" fresh); reflexivity.
Defined.

Lemma list_prints_the_program_in_order_witness :
  stdout (list_program calling)
  = stdout calling ++
    ((fun line_num => pretty line_num +:+ " " +:+ default "" (lines calling !! line_num) +:+ nl)
       <$> line_numbers calling)
  /\ StronglySorted Z.lt (line_numbers calling)
  /\ forall n, n ∈ line_numbers calling <-> is_Some (lines calling !! n).
Proof.
  apply (list_prints_the_program_in_order calling calling_not_empty).
  intros n [text Hl]. now destruct (calling_lines n text Hl).
Defined.

Lemma fetch_moves_to_the_next_line_witness :
  program_counter calling = Some 10 /\
  fetch calling = Some ("GOSUB 40", with_program_counter (Some 20) calling) /\
  lines calling !! 10 = Some "GOSUB 40" /\
  match program_counter (with_program_counter (Some 20) calling) with
  | Some m =>
      10 < m /\ is_Some (lines calling !! m) /\
      forall k, is_Some (lines calling !! k) -> k <= 10 \/ m <= k
  | None => forall k, is_Some (lines calling !! k) -> k <= 10
  end.
Proof.
  split; [reflexivity |]. split; [reflexivity |].
  apply (fetch_moves_to_the_next_line calling 10 "GOSUB 40"
           (with_program_counter (Some 20) calling)); reflexivity.
Defined.

Lemma dollar_functions_are_never_called_witness :
  called_function "LEN(C$)" = Some ("LEN", "C$") /\
  "LEN" <> "CHR$" /\ "LEN" <> "STR$".
Proof.
  split; [reflexivity |].
  apply (dollar_functions_are_never_called "LEN(C$)" "LEN" "C$"). reflexivity.
Defined.

Lemma unset_variable_reads_default_witness :
  identifier "X$" = true /\
  Dict.get "X$" (variables fresh) = None /\
  evaluate_expression 0 (variables fresh) "X$" = Ok (VStr "").
Proof.
  split; [reflexivity |]. split; [reflexivity |].
  apply (unset_variable_reads_default 0 (variables fresh) "X$"); reflexivity.
Defined.


Lemma print_literal_prints_its_content_witness :
  occurs PyStr.dq "A=1, B;(" = false /\
  execute_command 0 ("PRINT " +:+ PyStr.quoted "A=1, B;(") fresh
  = Done (color_print ("A=1, B;(" +:+ nl) fresh).
Proof.
  split; [reflexivity |].
  apply (print_literal_prints_its_content 0 "A=1, B;(" fresh). reflexivity.
Defined.

Lemma numbered_line_is_stored_witness :
  in_range 10 /\ clean "PRINT 1" = true /\
  exists st',
    add_line 0 "10 PRINT 1" calling = Done st' /\
    lines st' !! 10 = Some "PRINT 1" /\
    (forall k, k <> 10 -> lines st' !! k = lines calling !! k) /\
    variables st' = variables calling /\ stdout st' = stdout calling.
Proof.
  assert (in_range 10) as Hn by (split; vm_compute; congruence).
  split; [exact Hn |]. split; [reflexivity |].
  apply (numbered_line_is_stored 0 10 "PRINT 1" calling Hn). reflexivity.
Defined.

Lemma bare_number_deletes_the_line_witness :
  in_range 20 /\
  exists st',
    add_line 0 "20" calling = Done st' /\
    lines st' !! 20 = None /\
    (forall k, k <> 20 -> lines st' !! k = lines calling !! k) /\
    variables st' = variables calling /\ stdout st' = stdout calling.
Proof.
  assert (in_range 20) as Hn by (split; vm_compute; congruence).
  split; [exact Hn |].
  apply (bare_number_deletes_the_line 0 20 calling Hn).
Defined.

Lemma blank_line_does_nothing_witness :
  PyStr.strip "   " = "" /\ add_line 0 "   " calling = Done calling.
Proof.
  split; [reflexivity |].
  apply (blank_line_does_nothing 0 "   " calling). reflexivity.
Defined.

Lemma save_then_load_restores_the_program_witness :
  PyStr.nonempty (PyStr.strip_char PyStr.dq (PyStr.strip (PyStr.quoted "GAME"))) = true /\
  lines (handle_load (PyStr.quoted "GAME") (handle_save (PyStr.quoted "GAME") calling))
  = lines calling.
Proof.
  split; [reflexivity |].
  apply (save_then_load_restores_the_program (PyStr.quoted "GAME") calling);
    [reflexivity | exact calling_lines].
Defined.

Lemma print_semicolon_suppresses_line_end_witness :
  occurs PyStr.dq "A=1, B" = false /\
  execute_command 0 ("PRINT " +:+ PyStr.quoted "A=1, B" +:+ ";") fresh
  = Done (color_print "A=1, B" fresh).
Proof.
  split; [reflexivity |].
  apply (print_semicolon_suppresses_line_end 0 "A=1, B" fresh); reflexivity.
Defined.

Lemma len_of_a_literal_witness :
  occurs "," "TI (S)" = false /\
  evaluate_expression 1 (variables fresh) ("LEN(" +:+ PyStr.quoted "TI (S)" +:+ ")")
  = Ok (VInt 6).
Proof.
  split; [reflexivity |].
  apply (len_of_a_literal 0 (variables fresh) "TI (S)"); reflexivity.
Defined.
